(** * kbd-audio: keytap3 (batch) and keytap3-app (live) orchestration

    A shallow embedding of [keytap3.cpp] and [keytap3-app.cpp].

    Both programs are orchestrators: the numerical kernels (filtering,
    conversion, keypress detection, similarity map) live in [common.h] and
    the cipher breaker lives in [subbreak3.h].  Those are taken as an
    interface ([Lib]); what is modelled in full is the control flow of the
    two [main] functions, the four-state machine of the live variant, its
    UI bridge ([setData] / [getData]) and the recording file format. *)

From Stdlib Require Import ZArith QArith Lia List Ascii String.
From stdpp Require Import base option list strings gmap pretty.

Local Open Scope Z_scope.

(** ** Machine integers *)

(** [int] is 32 bits wide; a conversion from [size_t] keeps the low 32 bits
    and reads them as a two's complement number. *)
Definition int_min : Z := - 2 ^ 31.
Definition int_max : Z := 2 ^ 31 - 1.

Definition to_int (z : Z) : Z := (z + 2 ^ 31) mod 2 ^ 32 - 2 ^ 31.

(** ** Samples and waveforms ([common.h]) *)

(** A [float] sample is carried as its IEEE-754 binary32 bit pattern, a
    number in [0, 2^32).  The orchestrators never do arithmetic on samples:
    they copy them, hand them to the kernels and write them to disk. *)
Definition TSampleF : Type := Z.
Definition TSampleI16 : Type := Z.
Definition TWaveformF : Type := list TSampleF.
Definition TWaveformI16 : Type := list TSampleI16.

Definition is_float32 (x : TSampleF) : Prop := 0 <= x < 2 ^ 32.

(** Modelled from the spec: the constants of [constants.h], which is not part
    of the sources at hand (sample rate fixed at 24 kHz, default cutoff
    1500 Hz). *)
Definition kSampleRate : Z := 24000.
Definition kFreqCutoff_Hz : Z := 1500.

(** Modelled from the spec: [EAudioFilter] of [common.h] ("none,
    first-order high-pass, second-order high-pass"), numbered as the usage
    text of both programs numbers the filters: 0, 1, 2. *)
Module EAudioFilter.
Definition None : Z := 0.
Definition FirstOrderHighPass : Z := 1.
Definition SecondOrderHighPass : Z := 2.
End EAudioFilter.

(** Modelled from the spec: [TKeyPressData] of [common.h], a detected
    keypress with its sample offset and its cluster index, "initially
    none" (-1).  The reference to the waveform is left out. *)
Record TKeyPressData := mkKeyPress { pos : Z; cid : Z }.
Definition TKeyPressCollection : Type := list TKeyPressData.

(** Modelled from the spec: [TMatch] and [TSimilarityMap] of [common.h].
    Each entry records "the best normalized cross-correlation value" and
    "the offset at which that best CC occurred"; the map is a vector of
    vectors, read as [similarityMap[j][i]]. *)
Record TMatch := mkMatch { cc : Q; offset : Z }.
Definition TSimilarityMap : Type := list (list TMatch).

(** ** Files *)

Definition byte : Type := Z.
Abbreviation FileSystem := (gmap string (list byte)).

(** *** Recording file format: raw little-endian float32, no header *)

Definition bytes_of_float (x : TSampleF) : list byte :=
  [ Z.land x 255;
    Z.land (Z.shiftr x 8) 255;
    Z.land (Z.shiftr x 16) 255;
    Z.land (Z.shiftr x 24) 255 ].

Definition float_of_bytes (b0 b1 b2 b3 : byte) : TSampleF :=
  Z.lor b0 (Z.lor (Z.shiftl b1 8) (Z.lor (Z.shiftl b2 16) (Z.shiftl b3 24))).

(** [fout.write((char * ) waveformF.data(), sizeof(waveformF[0]) * waveformF.size())]:
    the samples' bytes in memory order, one after the other; on the
    little-endian hosts the program is built for, lowest byte first. *)
Definition raw_bytes (w : TWaveformF) : list byte :=
  flat_map bytes_of_float w.

(** [fin.read] into a buffer of [size / sizeof(float)] samples: whole
    groups of four bytes, a trailing partial group is dropped. *)
Fixpoint raw_samples (bs : list byte) : TWaveformF :=
  match bs with
  | b0 :: b1 :: b2 :: b3 :: rest => float_of_bytes b0 b1 b2 b3 :: raw_samples rest
  | _ => []
  end.

(** Modelled from the spec: [readFromFile<TSampleF>] of [common.h], which is
    not part of the sources at hand.  The recording format is "raw
    little-endian float32 samples, no header"; a missing file makes it
    return [false]. *)
Definition readFromFile (fname : string) (fs : FileSystem) : option TWaveformF :=
  raw_samples <$> fs !! fname.

(** The file write at the end of Recording in the live variant. *)
Definition writeRecording (fname : string) (w : TWaveformF) (fs : FileSystem) : FileSystem :=
  <[fname := raw_bytes w]> fs.

(** ** Text input: [operator>>], [std::stoi], [atoi] *)

(** [std::isspace] in the C locale: space and the controls 9 to 13. *)
Definition is_space (a : ascii) : bool :=
  let n := Z.of_N (N_of_ascii a) in
  (n =? 32) || ((9 <=? n) && (n <=? 13)).

Fixpoint skip_ws (s : string) : string :=
  match s with
  | String a s' => if is_space a then skip_ws s' else s
  | EmptyString => EmptyString
  end.

(** The characters up to the next white space, and what follows them. *)
Fixpoint read_token (s : string) : string * string :=
  match s with
  | String a s' =>
      if is_space a then (EmptyString, s)
      else let '(t, r) := read_token s' in (String a t, r)
  | EmptyString => (EmptyString, EmptyString)
  end.

(** [ss >> cmd] for a [std::string]: skip white space, take one word.  At
    the end of the stream the word is empty. *)
Definition extract_word (s : string) : string * string :=
  read_token (skip_ws s).

Definition digit_of (a : ascii) : option Z :=
  let n := Z.of_N (N_of_ascii a) in
  if (48 <=? n) && (n <=? 57) then Some (n - 48) else None.

(** The longest run of decimal digits at the front of [s]; [None] when
    there is no digit at all. *)
Fixpoint read_digits (s : string) (acc : Z) (seen : bool) : option Z :=
  match s with
  | String a s' =>
      match digit_of a with
      | Some d => read_digits s' (10 * acc + d) true
      | None => if seen then Some acc else None
      end
  | EmptyString => if seen then Some acc else None
  end.

(** White space, an optional sign, decimal digits: the number both
    [strtol] and the stream extractor read, before any range check. *)
Definition read_number (s : string) : option Z :=
  match skip_ws s with
  | String "-"%char s' => Z.opp <$> read_digits s' 0 false
  | String "+"%char s' => read_digits s' 0 false
  | s' => read_digits s' 0 false
  end.

Definition in_int (z : Z) : bool := (int_min <=? z) && (z <=? int_max).

(** [ss >> n] for an [int]: fails (and leaves the stream failed) when no
    number can be read or when it does not fit an [int]. *)
Definition extract_int (s : string) : option Z :=
  z ← read_number s; if in_int z then Some z else None.

(** [std::stoi]: throws [std::invalid_argument] or [std::out_of_range] in
    the same two cases; [None] stands for the exception. *)
Definition stoi (s : string) : option Z := extract_int s.

(** [long] is 64 bits wide on the hosts the program is built for. *)
Definition long_min : Z := - 2 ^ 63.
Definition long_max : Z := 2 ^ 63 - 1.

(** [strtol] in base 10: 0 when no number can be read; a number that does
    not fit a [long] gives [LONG_MAX] or [LONG_MIN]. *)
Definition strtol (s : string) : Z :=
  match read_number s with
  | Some z => Z.max long_min (Z.min long_max z)
  | None => 0
  end.

(** [atoi] is [(int) strtol(s, NULL, 10)]: out of the range of [int], where
    the C standard leaves the value open, the library saturates the [long]
    and the conversion keeps its low 32 bits. *)
Definition atoi (s : string) : Z := to_int (strtol s).

(** ** The cipher breaker's data ([subbreak3.h]) *)

Module Cipher.

(** Modelled from the spec: [Cipher::TParameters] of [subbreak3.h], with
    the fields the orchestrators write. *)
Record TParameters := mkParameters {
  maxClusters : Z;
  wEnglishFreq : Q;
  nHypothesesToKeep : Z;
  hint : list Z
}.

(** Modelled from the spec: [Cipher::TResult], the decoding result, "a
    (clusters, clMap, p, pClusters) tuple". *)
Record TResult := mkResult {
  clusters : list Z;
  clMap : list (Z * Z);
  p : Q;
  pClusters : Q
}.

Definition set_maxClusters (k : Z) (params : TParameters) : TParameters :=
  {| maxClusters := k;
     wEnglishFreq := wEnglishFreq params;
     nHypothesesToKeep := nHypothesesToKeep params;
     hint := hint params |}.

Definition set_hint (h : list Z) (params : TParameters) : TParameters :=
  {| maxClusters := maxClusters params;
     wEnglishFreq := wEnglishFreq params;
     nHypothesesToKeep := nHypothesesToKeep params;
     hint := h |}.

End Cipher.

(** ** The library interface

    Everything the two programs call and do not define: [common.h] and
    [subbreak3.h] are not part of the sources at hand, so their functions
    are parameters.  A C++ reference parameter that the callee may write
    becomes an argument and a component of the result. *)
Class Lib := {
  (** [common.h] *)
  parseCmdArguments : list string -> gmap string string;
  filter : TWaveformF -> Z -> Z -> Z -> TWaveformF;
  convert : TWaveformF -> TWaveformI16 -> bool * TWaveformI16;
  findKeyPresses :
    TWaveformI16 -> TKeyPressCollection -> Q -> Z -> Z -> bool ->
    bool * TKeyPressCollection;
  calculateSimilartyMap :
    Z -> Z -> Z -> TKeyPressCollection ->
    bool * TKeyPressCollection * TSimilarityMap;
  (** [subbreak3.h] *)
  TFreqMap : Type;
  emptyFreqMap : TFreqMap;
  loadFreqMapBinary : string -> FileSystem -> TFreqMap -> bool * TFreqMap;
  Processor : Type;
  newProcessor : Processor;
  processorInit :
    Cipher.TParameters -> TFreqMap -> TSimilarityMap -> Processor -> Processor;
  getClusterings :
    Cipher.TParameters -> Z -> Processor -> list Cipher.TResult * Processor;
  beamSearch : Cipher.TParameters -> TFreqMap -> Cipher.TResult -> Cipher.TResult;
  refineNearby : Cipher.TParameters -> TFreqMap -> Cipher.TResult -> Cipher.TResult
}.

(** ** How a run ends *)

(** What the decoding stage leaves behind: every call made to the
    clusterer (the [maxClusters] in force, the count asked for, the
    clusterings returned), the pooled candidates, the results as printed
    after the beam search and the candidates after refinement. *)
Record Report := mkReport {
  calls : list (Z * Z * list Cipher.TResult);
  pooled : list Cipher.TResult;
  lastParams : Cipher.TParameters;
  printed : list Cipher.TResult;
  refined : list Cipher.TResult
}.



Inductive Fault :=
  | OutOfBounds     (** [similarityMap[j][i]] read outside the vectors *)
  | Uncaught.       (** an exception left [main] *)

(** A computation inside a function body either goes on with a value,
    returns from the function, or breaks. *)
Inductive Run (R A : Type) :=
  | Cont (a : A)
  | Return (r : R)
  | Broken (f : Fault).
Arguments Cont {R A} a.
Arguments Return {R A} r.
Arguments Broken {R A} f.

Global Instance Run_ret {R} : MRet (Run R) := fun A a => Cont a.
Global Instance Run_bind {R} : MBind (Run R) := fun A B k m =>
  match m with
  | Cont a => k a
  | Return r => Return r
  | Broken f => Broken f
  end.

Definition orReturn {R A} (r : R) (o : option A) : Run R A :=
  match o with Some a => Cont a | None => Return r end.

Definition orBroken {R A} (f : Fault) (o : option A) : Run R A :=
  match o with Some a => Cont a | None => Broken f end.

Definition check {R} (ok : bool) (r : R) : Run R unit :=
  if ok then Cont tt else Return r.

(** [argm.count(k) == 0 ? dflt : std::stoi(argm.at(k))] *)
Definition option_int (argm : gmap string string) (k : string) (dflt : Z) : Run Z Z :=
  match argm !! k with
  | None => Cont dflt
  | Some v => orBroken Uncaught (stoi v)
  end.

(** ** The stages both programs share

    [keytap3.cpp] lines 84-185 and the Decoding worker of [keytap3-app.cpp]
    (lines 387-475) are the same text, but for the arguments given to
    [calculateSimilartyMap] and the name of the n-gram map. *)
Section Stages.
Context {L : Lib}.

(** [std::min] and [std::max] on [double]. *)
Definition min_cc (a b : Q) : Q := if Qlt_le_dec b a then b else a.
Definition max_cc (a b : Q) : Q := if Qlt_le_dec a b then b else a.

(** [similarityMap[j][i]]: there is a value only inside both vectors. *)
Definition cell (m : TSimilarityMap) (j i : nat) : option TMatch :=
  row ← m !! j; row !! i.

(** The indices [lo, lo+1, ..., hi-1] of a [for] loop over [int]. *)
Definition range (lo hi : Z) : list nat :=
  seq (Z.to_nat lo) (Z.to_nat (hi - lo)).

(** The corner of the map that is printed: [ncc = min(32, n)] rows and
    columns. *)
Definition printCorner (n : Z) (m : TSimilarityMap) : option (list (list Q)) :=
  let ncc := Z.min 32 n in
  mapM (fun j => mapM (fun i => cc <$> cell m j i) (range 0 ncc)) (range 0 ncc).

(** [minCC] and [maxCC]: both start from [similarityMap[0][1].cc], then
    every cell above the diagonal is folded in. *)
Definition minmaxCC (n : Z) (m : TSimilarityMap) : option (Q * Q) :=
  first ← cell m 0 1;
  foldl (fun acc j =>
           foldl (fun acc i =>
                    '(lo, hi) ← acc;
                    c ← cell m j i;
                    Some (min_cc lo (cc c), max_cc hi (cc c)))
                 acc (range (Z.of_nat j + 1) n))
        (Some (cc first, cc first)) (range 0 (n - 1)).

(** The block after [calculateSimilartyMap] succeeded. *)
Definition similarityStats {R} (n : Z) (m : TSimilarityMap)
  : Run R (list (list Q) * (Q * Q)) :=
  corner ← orBroken OutOfBounds (printCorner n m);
  mm ← orBroken OutOfBounds (minmaxCC n m);
  mret (corner, mm).

(** [std::max(100, 2100 - 10*std::min(200, std::max(0, ((int) keyPresses.size() - 100))))] *)
Definition beamWidth (size : Z) : Z :=
  Z.max 100 (2100 - 10 * Z.min 200 (Z.max 0 (to_int (to_int size - 100)))).

Definition initialParams (keyPresses : TKeyPressCollection) : Cipher.TParameters :=
  {| Cipher.maxClusters := 29;
     Cipher.wEnglishFreq := 20;
     Cipher.nHypothesesToKeep := beamWidth (Z.of_nat (length keyPresses));
     Cipher.hint := [] |}.

(** The state the clustering loop works on. *)
Record Clustering := mkClustering {
  params : Cipher.TParameters;
  processor : Processor;
  clusterings : list Cipher.TResult;
  clusterCalls : list (Z * Z * list Cipher.TResult)
}.

(** One turn of [for (int nIter = 0; nIter < 16; ++nIter)]. *)
Definition clusteringStep (freqMap6 : TFreqMap) (similarityMap : TSimilarityMap)
    (st : Clustering) (nIter : nat) : Clustering :=
  let '(clusteringsCur, proc) := getClusterings (params st) 32 (processor st) in
  let params' := Cipher.set_maxClusters (29 + 4 * (Z.of_nat nIter + 1)) (params st) in
  {| params := params';
     processor := processorInit params' freqMap6 similarityMap proc;
     clusterings := clusterings st ++ clusteringsCur;
     clusterCalls :=
       clusterCalls st ++ [(Cipher.maxClusters (params st), 32, clusteringsCur)] |}.

Definition clusteringLoop (freqMap6 : TFreqMap) (similarityMap : TSimilarityMap)
    (st : Clustering) : Clustering :=
  foldl (clusteringStep freqMap6 similarityMap) st (range 0 16).

(** [processor.init(params, freqMap6, similarityMap)] on a fresh processor,
    and an empty candidate list. *)
Definition initialClustering (keyPresses : TKeyPressCollection)
    (freqMap6 : TFreqMap) (similarityMap : TSimilarityMap) : Clustering :=
  {| params := initialParams keyPresses;
     processor :=
       processorInit (initialParams keyPresses) freqMap6 similarityMap newProcessor;
     clusterings := [];
     clusterCalls := [] |}.

Definition clustered (keyPresses : TKeyPressCollection)
    (freqMap6 : TFreqMap) (similarityMap : TSimilarityMap) : Clustering :=
  clusteringLoop freqMap6 similarityMap (initialClustering keyPresses freqMap6 similarityMap).

(** [params.hint.clear(); params.hint.resize(n, -1);] *)
Definition decodingParams (n : Z) (st : Clustering) : Cipher.TParameters :=
  Cipher.set_hint (replicate (Z.to_nat n) (-1)) (params st).

(** From [Cipher::Processor processor;] to the [break] of the
    [while (true)]: set the parameters, cluster, then beam search, print
    and refine each candidate. *)
Definition recoverText (n : Z) (keyPresses : TKeyPressCollection)
    (freqMap6 : TFreqMap) (similarityMap : TSimilarityMap) : Report :=
  let st := clustered keyPresses freqMap6 similarityMap in
  let params1 := decodingParams n st in
  let searched := map (beamSearch params1 freqMap6) (clusterings st) in
  {| calls := clusterCalls st;
     pooled := clusterings st;
     lastParams := params1;
     printed := searched;
     refined := map (refineNearby params1 freqMap6) searched |}.

End Stages.

(** ** The batch program: [keytap3.cpp] *)

Module Batch.
Section Batch.
Context {L : Lib}.

Definition ngramFile (dir : string) : string :=
  dir +:+ "/ggwords-6-gram.dat.binary".

(** Lines 36-57: the options, then the recording is read, filtered and
    converted. *)
Definition loadWaveform (argv : list string) (fs : FileSystem) : Run Z TWaveformI16 :=
  let argm := parseCmdArguments argv in
  filterId ← option_int argm "F" EAudioFilter.FirstOrderHighPass;
  freqCutoff_Hz ← option_int argm "f" kFreqCutoff_Hz;
  let argv1 := default "" (argv !! 1%nat) in
  waveformInputF ← orReturn (-1) (readFromFile argv1 fs);
  let filtered := filter waveformInputF filterId freqCutoff_Hz kSampleRate in
  let '(ok, waveformInput) := convert filtered [] in
  _ ← check ok (-4);
  mret waveformInput.

(** Lines 65-82. *)
Definition detect (waveformInput : TWaveformI16) : Run Z TKeyPressCollection :=
  let '(ok, keyPresses) := findKeyPresses waveformInput [] 8 512 (2 * 1024) true in
  _ ← check ok (-2);
  mret keyPresses.

(** Lines 84-265: everything after the detection. *)
Definition analyse (argv2 : string) (fs : FileSystem) (keyPresses : TKeyPressCollection)
  : Run Z Report :=
  let n := to_int (Z.of_nat (length keyPresses)) in
  let '(ok, keyPresses, similarityMap) :=
    calculateSimilartyMap (2 * 256) (3 * 32) (2 * 256 - 128) keyPresses in
  _ ← check ok (-3);
  _ ← similarityStats n similarityMap;
  let '(ok, freqMap6) := loadFreqMapBinary (ngramFile argv2) fs emptyFreqMap in
  _ ← check ok (-5);
  mret (recoverText n keyPresses freqMap6 similarityMap).

(** [main], up to the point where it returns: the value is what a
    completed run leaves behind. *)
Definition run (argv : list string) (fs : FileSystem) : Run Z Report :=
  _ ← check (negb (Z.of_nat (length argv) <? 3)) (-1);
  waveformInput ← loadWaveform argv fs;
  keyPresses ← detect waveformInput;
  analyse (default "" (argv !! 2%nat)) fs keyPresses.

(** How the process ends: an exit code, or a fault. *)
Definition main (argv : list string) (fs : FileSystem) : Z + Fault :=
  match run argv fs with
  | Cont _ => inl 0
  | Return code => inl code
  | Broken f => inr f
  end.

End Batch.
End Batch.

(** ** The live program: [keytap3-app.cpp] *)

(** [AudioLogger::Parameters], without the callback: the callback is always
    the [cbAudio] of the recording state. *)
Module AudioLogger.
Record Parameters := mkParameters {
  captureId : Z;
  nChannels : Z;
  sampleRate : Z;
  filter : Z;
  freqCutoff_Hz : Z
}.
End AudioLogger.

(** What the live program needs from its host, as parameters: the capture
    collaborator ([audio-logger.h], not part of the sources at hand),
    whether a file can be opened for writing, and the text [std::to_string]
    gives for the typing speed [60.0f*(nKeysHave/tElapsed)], a [float]. *)
Class Host := {
  AudioLoggerT : Type;
  newAudioLogger : AudioLoggerT;
  install : AudioLogger.Parameters -> AudioLoggerT -> bool * AudioLoggerT;
  record : Q -> Z -> AudioLoggerT -> AudioLoggerT;
  terminate : AudioLoggerT -> AudioLoggerT;
  foutGood : string -> FileSystem -> bool;
  cpmText : Z -> Q -> string
}.

Module Live.

Inductive EState := Loading | Idle | Recording | Decoding.

(** The three lambdas a [std::thread] is started with. *)
Inductive Job := LoadNgrams | KeepDetecting | Decode.

(** [state.worker] when joinable: what it runs, and whether its body has
  come to its end. *)
Record Thread := mkThread { job : Job; exited : bool }.

(** What happens on the other threads: the worker gets to run (the whole
  body of the Loading or Decoding lambda, or one turn of the Recording
  loop, at the given elapsed time), or the capture thread delivers
  frames. *)
Inductive EnvEvent :=
| WorkerRuns (tElapsed : Q)
| AudioFrames (frames : list (list TSampleF)).

Section Live.
Context {L : Lib} {H : Host}.

Record StateRecording := mkStateRecording {
  captureId : Z;
  nChannels : Z;
  filterId : Z;
  freqCutoff_Hz : Z;
  nKeysToCapture : Z;
  nKeysHave : Z;
  isStarted : bool;
  doRecord : bool;
  doneRecording : bool;
  totalSize_bytes : Z;
  pathOutput : string;
  waveformF : TWaveformF;
  waveformFWork : TWaveformF;
  waveformI16 : TWaveformI16;
  keyPresses : TKeyPressCollection;
  audioLogger : AudioLoggerT
}.

(** The default member initialisers. *)
Definition StateRecording_default : StateRecording :=
  {| captureId := 0;
     nChannels := 1;
     filterId := EAudioFilter.FirstOrderHighPass;
     freqCutoff_Hz := kFreqCutoff_Hz;
     nKeysToCapture := 100;
     nKeysHave := 0;
     isStarted := false;
     doRecord := false;
     doneRecording := false;
     totalSize_bytes := 0;
     pathOutput := "record.kbd";
     waveformF := [];
     waveformFWork := [];
     waveformI16 := [];
     keyPresses := [];
     audioLogger := newAudioLogger |}.

Definition set_nKeysToCapture (v : Z) (r : StateRecording) : StateRecording :=
  mkStateRecording (captureId r) (nChannels r) (filterId r) (freqCutoff_Hz r) v
    (nKeysHave r) (isStarted r) (doRecord r) (doneRecording r) (totalSize_bytes r)
    (pathOutput r) (waveformF r) (waveformFWork r) (waveformI16 r) (keyPresses r)
    (audioLogger r).
Definition set_nKeysHave (v : Z) (r : StateRecording) : StateRecording :=
  mkStateRecording (captureId r) (nChannels r) (filterId r) (freqCutoff_Hz r)
    (nKeysToCapture r) v (isStarted r) (doRecord r) (doneRecording r)
    (totalSize_bytes r) (pathOutput r) (waveformF r) (waveformFWork r) (waveformI16 r)
    (keyPresses r) (audioLogger r).
Definition set_isStarted (v : bool) (r : StateRecording) : StateRecording :=
  mkStateRecording (captureId r) (nChannels r) (filterId r) (freqCutoff_Hz r)
    (nKeysToCapture r) (nKeysHave r) v (doRecord r) (doneRecording r)
    (totalSize_bytes r) (pathOutput r) (waveformF r) (waveformFWork r) (waveformI16 r)
    (keyPresses r) (audioLogger r).
Definition set_doRecord (v : bool) (r : StateRecording) : StateRecording :=
  mkStateRecording (captureId r) (nChannels r) (filterId r) (freqCutoff_Hz r)
    (nKeysToCapture r) (nKeysHave r) (isStarted r) v (doneRecording r)
    (totalSize_bytes r) (pathOutput r) (waveformF r) (waveformFWork r) (waveformI16 r)
    (keyPresses r) (audioLogger r).
Definition set_doneRecording (v : bool) (r : StateRecording) : StateRecording :=
  mkStateRecording (captureId r) (nChannels r) (filterId r) (freqCutoff_Hz r)
    (nKeysToCapture r) (nKeysHave r) (isStarted r) (doRecord r) v (totalSize_bytes r)
    (pathOutput r) (waveformF r) (waveformFWork r) (waveformI16 r) (keyPresses r)
    (audioLogger r).
Definition set_totalSize_bytes (v : Z) (r : StateRecording) : StateRecording :=
  mkStateRecording (captureId r) (nChannels r) (filterId r) (freqCutoff_Hz r)
    (nKeysToCapture r) (nKeysHave r) (isStarted r) (doRecord r) (doneRecording r) v
    (pathOutput r) (waveformF r) (waveformFWork r) (waveformI16 r) (keyPresses r)
    (audioLogger r).
Definition set_waveformF (v : TWaveformF) (r : StateRecording) : StateRecording :=
  mkStateRecording (captureId r) (nChannels r) (filterId r) (freqCutoff_Hz r)
    (nKeysToCapture r) (nKeysHave r) (isStarted r) (doRecord r) (doneRecording r)
    (totalSize_bytes r) (pathOutput r) v (waveformFWork r) (waveformI16 r)
    (keyPresses r) (audioLogger r).
Definition set_waveformFWork (v : TWaveformF) (r : StateRecording) : StateRecording :=
  mkStateRecording (captureId r) (nChannels r) (filterId r) (freqCutoff_Hz r)
    (nKeysToCapture r) (nKeysHave r) (isStarted r) (doRecord r) (doneRecording r)
    (totalSize_bytes r) (pathOutput r) (waveformF r) v (waveformI16 r) (keyPresses r)
    (audioLogger r).
Definition set_waveformI16 (v : TWaveformI16) (r : StateRecording) : StateRecording :=
  mkStateRecording (captureId r) (nChannels r) (filterId r) (freqCutoff_Hz r)
    (nKeysToCapture r) (nKeysHave r) (isStarted r) (doRecord r) (doneRecording r)
    (totalSize_bytes r) (pathOutput r) (waveformF r) (waveformFWork r) v
    (keyPresses r) (audioLogger r).
Definition set_keyPresses (v : TKeyPressCollection) (r : StateRecording) : StateRecording :=
  mkStateRecording (captureId r) (nChannels r) (filterId r) (freqCutoff_Hz r)
    (nKeysToCapture r) (nKeysHave r) (isStarted r) (doRecord r) (doneRecording r)
    (totalSize_bytes r) (pathOutput r) (waveformF r) (waveformFWork r) (waveformI16 r)
    v (audioLogger r).
Definition set_audioLogger (v : AudioLoggerT) (r : StateRecording) : StateRecording :=
  mkStateRecording (captureId r) (nChannels r) (filterId r) (freqCutoff_Hz r)
    (nKeysToCapture r) (nKeysHave r) (isStarted r) (doRecord r) (doneRecording r)
    (totalSize_bytes r) (pathOutput r) (waveformF r) (waveformFWork r) (waveformI16 r)
    (keyPresses r) v.

(** The parameters [StateRecording::init] hands to [install]. *)
Definition installParameters (r : StateRecording) : AudioLogger.Parameters :=
  {| AudioLogger.captureId := captureId r;
     AudioLogger.nChannels := nChannels r;
     AudioLogger.sampleRate := kSampleRate;
     AudioLogger.filter := EAudioFilter.None;
     AudioLogger.freqCutoff_Hz := freqCutoff_Hz r |}.

(** [StateRecording::init]: its result and the state it leaves. *)
Definition StateRecording_init (r : StateRecording) : bool * StateRecording :=
  if isStarted r && negb (doneRecording r) then (false, r)
  else
    let r := set_nKeysHave 0 r in
    let r := set_isStarted true r in
    let r := set_doRecord true r in
    let r := set_doneRecording false r in
    let r := set_totalSize_bytes 0 r in
    let r := set_waveformF [] r in
    let r := set_waveformI16 [] r in
    let r := set_keyPresses [] r in
    let '(ok, logger) := install (installParameters r) (audioLogger r) in
    (ok, set_audioLogger logger r).

(** The callback installed by [init], called on the capture thread. *)
Definition cbAudio (frames : list (list TSampleF)) (r : StateRecording) : StateRecording :=
  let r := set_waveformF (waveformF r ++ concat frames) r in
  if (nKeysToCapture r <=? nKeysHave r) && negb (doneRecording r)
  then set_doneRecording true r
  else set_doRecord true r.

(** [StateRecording::update] *)
Definition StateRecording_update (r : StateRecording) : StateRecording :=
  if negb (isStarted r) then r
  else if doRecord r
       then set_audioLogger (record 1 0 (audioLogger r)) (set_doRecord false r)
       else r.

(** [StateRecording::updateWorker]: the text written to [dataOutput] is
    threaded through. *)
Definition StateRecording_updateWorker (dataOutput : string) (tElapsed : Q)
    (r : StateRecording) : string * StateRecording :=
  let r := set_waveformFWork (waveformF r) r in
  let waveformFFiltered :=
    filter (waveformFWork r) EAudioFilter.FirstOrderHighPass kFreqCutoff_Hz kSampleRate in
  let '(_, w16) := convert waveformFFiltered (waveformI16 r) in
  let r := set_waveformI16 w16 r in
  let '(_, kp) := findKeyPresses (waveformI16 r) (keyPresses r) 8 512 (2 * 1024) true in
  let r := set_keyPresses kp r in
  let size := to_int (Z.of_nat (length (keyPresses r))) in
  let '(dataOutput, r) :=
    if nKeysHave r <? size
    then ("recording " +:+ pretty size +:+ " " +:+ cpmText size tElapsed,
          set_nKeysHave size r)
    else (dataOutput, r) in
  if negb (Qle_bool tElapsed (2 * 60))
  then (dataOutput, set_doneRecording true r)
  else (dataOutput, r).

Record StateDecoding := mkStateDecoding {
  pathData : string;
  waveformInput : TWaveformI16;
  freqMap6 : TFreqMap
}.

Definition StateDecoding_default : StateDecoding :=
  {| pathData := "./data"; waveformInput := []; freqMap6 := emptyFreqMap |}.

Record State := mkState {
  state : EState;
  dataOutput : string;
  recording : StateRecording;
  decoding : StateDecoding;
  worker : option Thread;
  workDone : bool
}.

Definition set_state (v : EState) (s : State) : State :=
  mkState v (dataOutput s) (recording s) (decoding s) (worker s) (workDone s).
Definition set_dataOutput (v : string) (s : State) : State :=
  mkState (state s) v (recording s) (decoding s) (worker s) (workDone s).
Definition set_recording (v : StateRecording) (s : State) : State :=
  mkState (state s) (dataOutput s) v (decoding s) (worker s) (workDone s).
Definition set_decoding (v : StateDecoding) (s : State) : State :=
  mkState (state s) (dataOutput s) (recording s) v (worker s) (workDone s).
Definition set_worker (v : option Thread) (s : State) : State :=
  mkState (state s) (dataOutput s) (recording s) (decoding s) v (workDone s).
Definition set_workDone (v : bool) (s : State) : State :=
  mkState (state s) (dataOutput s) (recording s) (decoding s) (worker s) v.

(** The program state together with what lies outside it: the disk, the
    reports the Decoding worker printed, and the fault that stopped the
    process, if any. *)
Record World := mkWorld {
  app : State;
  disk : FileSystem;
  stdout : list Report;
  fault : option Fault
}.

Definition set_app (v : State) (w : World) : World :=
  mkWorld v (disk w) (stdout w) (fault w).
Definition set_disk (v : FileSystem) (w : World) : World :=
  mkWorld (app w) v (stdout w) (fault w).
Definition set_stdout (v : list Report) (w : World) : World :=
  mkWorld (app w) (disk w) v (fault w).
Definition set_fault (v : option Fault) (w : World) : World :=
  mkWorld (app w) (disk w) (stdout w) v.

(** *** The UI bridge *)

(** [setData]: a command from the UI. *)
Definition setData (data : string) (s : State) : State :=
  let '(cmd, rest) := extract_word data in
  if String.eqb cmd "start" then
    match state s with
    | Idle =>
        let s :=
          match extract_int rest with
          | Some nKeysToCapture =>
              set_recording (set_nKeysToCapture nKeysToCapture (recording s)) s
          | None => s
          end in
        let s := set_state Recording s in
        set_recording (snd (StateRecording_init (recording s))) s
    | _ => s
    end
  else if String.eqb cmd "stop" then set_state Idle s
  else s.

(** [getData]: the pending message, which is cleared. *)
Definition getData (s : State) : string * State :=
  let res := dataOutput s in
  (res, set_dataOutput "" s).

(** *** The worker lambdas *)

Definition ngramFile (pathData : string) : string :=
  pathData +:+ "/./ggwords-6-gram.dat.binary".

(** Loading: load the n-gram map, and say so when it worked. *)
Definition loadingWorker (w : World) : World :=
  let s := app w in
  let d := decoding s in
  let '(ok, fm) := loadFreqMapBinary (ngramFile (pathData d)) (disk w) (freqMap6 d) in
  let s := set_decoding (mkStateDecoding (pathData d) (waveformInput d) fm) s in
  if ok then set_app (set_workDone true s) w else set_app s w.

(** Recording: one turn of [while (state.recording.doneRecording == false)]. *)
Definition recordingWorker (tElapsed : Q) (s : State) : State :=
  let '(out, r) := StateRecording_updateWorker (dataOutput s) tElapsed (recording s) in
  set_recording r (set_dataOutput out s).

(** Decoding, up to [printf("[+] Done\n")]: a [return] leaves the lambda
    early. *)
Definition decodingBody (s : State) : Run unit Report :=
  let d := decoding s in
  let '(ok, keyPresses) := findKeyPresses (waveformInput d) [] 8 512 (2 * 1024) true in
  _ ← check ok tt;
  let n := to_int (Z.of_nat (length keyPresses)) in
  let '(ok, keyPresses, similarityMap) :=
    calculateSimilartyMap (3 * 256) (3 * 32) (3 * 256 - 128) keyPresses in
  _ ← check ok tt;
  _ ← similarityStats n similarityMap;
  mret (recoverText n keyPresses (freqMap6 d) similarityMap).

Definition decodingWorker (w : World) : World :=
  match decodingBody (app w) with
  | Cont report =>
      set_stdout (stdout w ++ [report])
        (set_app (set_workDone true (set_dataOutput "done" (app w))) w)
  | Return _ => w
  | Broken f => set_fault (Some f) w
  end.

Definition set_exited (w : World) : World :=
  match worker (app w) with
  | Some t => set_app (set_worker (Some (mkThread (job t) true)) (app w)) w
  | None => w
  end.

(** The worker thread gets to run. *)
Definition workerRuns (tElapsed : Q) (w : World) : World :=
  match worker (app w) with
  | Some t =>
      if exited t then w
      else match job t with
           | LoadNgrams => set_exited (loadingWorker w)
           | KeepDetecting =>
               if doneRecording (recording (app w)) then set_exited w
               else set_app (recordingWorker tElapsed (app w)) w
           | Decode => set_exited (decodingWorker w)
           end
  | None => w
  end.

(** [state.worker.join()]: the caller waits until the thread's body has
    come to its end; the handle is no longer joinable.  The Recording
    loop ends by itself only once [doneRecording] is set. *)
Definition join (w : World) : World :=
  match worker (app w) with
  | Some t =>
      let w :=
        if exited t then w
        else match job t with
             | LoadNgrams => loadingWorker w
             | KeepDetecting => w
             | Decode => decodingWorker w
             end in
      set_app (set_worker None (app w)) w
  | None => w
  end.

Definition spawn (j : Job) (s : State) : State :=
  set_worker (Some (mkThread j false)) s.

Definition joinable (s : State) : bool :=
  match worker s with Some _ => true | None => false end.

(** *** The other threads *)

Definition envStep (e : EnvEvent) (w : World) : World :=
  match e with
  | WorkerRuns tElapsed => workerRuns tElapsed w
  | AudioFrames frames =>
      set_app (set_recording (cbAudio frames (recording (app w))) (app w)) w
  end.

(** What the worker and the capture thread do while the control thread
    is busy or asleep: a run of events, in order. *)
Definition during (evs : list EnvEvent) (w : World) : World :=
  foldl (fun w e => envStep e w) w evs.

(** *** The control loop *)

(** Each case of [mainLoop] is two [if]s: the first starts the worker when
    there is none, the second tests the worker's flag and, when it is set,
    joins the worker and moves on.  The thread runs from the moment it is
    started, so it can set its flag before the test of the same call. *)

Definition startLoading (w : World) : World :=
  if negb (joinable (app w))
  then set_app (spawn LoadNgrams (set_dataOutput "loading" (app w))) w
  else w.

Definition finishLoading (w : World) : bool * World :=
  if workDone (app w)
  then
    let w := join w in
    (true, set_app (set_dataOutput "loaded" (set_state Idle (app w))) w)
  else (true, w).

Definition startRecording (w : World) : World :=
  let w := set_app (set_recording (StateRecording_update (recording (app w))) (app w)) w in
  if negb (joinable (app w)) then set_app (spawn KeepDetecting (app w)) w else w.

Definition finishRecording (w : World) : bool * World :=
  if doneRecording (recording (app w))
  then
    let r := recording (app w) in
    let w := set_app (set_recording (set_audioLogger (terminate (audioLogger r)) r) (app w)) w in
    let w := join w in
    let r := recording (app w) in
    if negb (foutGood (pathOutput r) (disk w)) then (false, w)
    else
      let r := set_totalSize_bytes (4 * Z.of_nat (length (waveformF r))) r in
      let w := set_disk (writeRecording (pathOutput r) (waveformF r) (disk w)) w in
      let s := set_dataOutput "decoding" (set_recording r (app w)) in
      let d := decoding s in
      let s := set_decoding (mkStateDecoding (pathData d) (waveformI16 r) (freqMap6 d)) s in
      (true, set_app (set_state Decoding s) w)
  else (true, w).

Definition startDecoding (w : World) : World :=
  if negb (joinable (app w))
  then set_app (spawn Decode (set_workDone false (app w))) w
  else w.

Definition finishDecoding (w : World) : bool * World :=
  if workDone (app w)
  then
    let w := join w in
    (true, set_app (set_state Idle (app w)) w)
  else (true, w).

(** [mainLoop]: one call; the result is its return value and the world
    it leaves.  [mid] is what the other threads do while the call runs,
    placed between the two [if]s of the case; with [mid = []] nothing else
    runs during the call. *)
Definition mainLoop (mid : list EnvEvent) (w : World) : bool * World :=
  match state (app w) with
  | Loading => finishLoading (during mid (startLoading w))
  | Idle => (true, during mid w)
  | Recording => finishRecording (during mid (startRecording w))
  | Decoding => finishDecoding (during mid (startDecoding w))
  end.

(** *** [main] *)

(** [AppInterface::init] only installs the lambdas, [doInit] only calls
    the empty [State::init]; both return [true]. *)
Definition AppInterface_init : bool := true.
Definition doInit : bool := true.

(** The native main loop.  Each entry of the schedule is one turn: what
    the other threads do during the call of [mainLoop], and what they do
    while the loop sleeps.  The result is how the process ends and the
    world it ends in; [None]: the schedule is used up and the loop is
    still running. *)
Fixpoint nativeLoop (sched : list (list EnvEvent * list EnvEvent)) (nLoops : Z) (w : World)
  : option ((Z + Fault) * World) :=
  match sched with
  | [] => None
  | (mid, evs) :: sched' =>
      let '(continue, w) := mainLoop mid w in
      match fault w with
      | Some f => Some (inr f, w)
      | None =>
          if negb continue then Some (inl 0, w)
          else
            let w := during evs w in
            match fault w with
            | Some f => Some (inr f, w)
            | None =>
                let nLoops := to_int (nLoops + 1) in
                let w :=
                  if Z.rem nLoops 1000 =? 0
                  then set_app (setData "start" (app w)) w
                  else w in
                nativeLoop sched' nLoops w
            end
      end
  end.

(** The state [main] builds from the command line. *)
Definition initialState (argv : list string) (captureId nChannels filterId freqCutoff_Hz : Z)
  : State :=
  let argv1 := default "" (argv !! 1%nat) in
  let argv2 := default "" (argv !! 2%nat) in
  let argv3 := default "" (argv !! 3%nat) in
  {| state := Loading;
     dataOutput := "";
     recording :=
       {| captureId := captureId;
          nChannels := nChannels;
          filterId := filterId;
          freqCutoff_Hz := freqCutoff_Hz;
          nKeysToCapture := atoi argv3;
          nKeysHave := 0;
          isStarted := false;
          doRecord := false;
          doneRecording := false;
          totalSize_bytes := 0;
          pathOutput := argv1;
          waveformF := [];
          waveformFWork := [];
          waveformI16 := [];
          keyPresses := [];
          audioLogger := newAudioLogger |};
     decoding := {| pathData := argv2; waveformInput := []; freqMap6 := emptyFreqMap |};
     worker := None;
     workDone := false |}.

Definition argState (argv : list string) : Run Z State :=
  _ ← check (negb (Z.of_nat (length argv) <? 4)) (-1);
  let argm := parseCmdArguments argv in
  captureId ← option_int argm "c" 0;
  nChannels ← option_int argm "C" 0;
  filterId ← option_int argm "F" EAudioFilter.FirstOrderHighPass;
  freqCutoff_Hz ← option_int argm "f" kFreqCutoff_Hz;
  mret (initialState argv captureId nChannels filterId freqCutoff_Hz).

(** [main] of the native build: the exit code or the fault the process
    ends with, if it ends within the schedule. *)
Definition main (argv : list string) (fs : FileSystem)
    (sched : list (list EnvEvent * list EnvEvent)) : option (Z + Fault) :=
  match argState argv with
  | Return code => Some (inl code)
  | Broken f => Some (inr f)
  | Cont s =>
      if negb AppInterface_init then Some (inl (-4))
      else if negb doInit then Some (inl (-5))
      else fst <$> nativeLoop sched 500 (mkWorld s fs [] None)
  end.

End Live.
End Live.

(** ** A bench instance of the two interfaces

    Small executable stand-ins for the kernels and the host, to run the
    two programs on concrete inputs.  The detector reports every nonzero
    sample; the similarity engine answers with the n-by-n map its contract
    promises; the clusterer returns one clustering per call; the n-gram
    map loads when its file is on the disk. *)
Module Bench.

Definition levels (w : TWaveformF) (dst : TWaveformI16) : bool * TWaveformI16 :=
  (true, map (fun x => if x =? 0 then 0 else 32767) w).

Fixpoint onsets (w : TWaveformI16) (at_ : Z) : TKeyPressCollection :=
  match w with
  | [] => []
  | x :: w' =>
      if x =? 0 then onsets w' (at_ + 1)
      else mkKeyPress at_ (-1) :: onsets w' (at_ + 1)
  end.

Definition similarity (keyPresses : TKeyPressCollection) : TSimilarityMap :=
  let n := length keyPresses in
  replicate n (replicate n (mkMatch 1 0)).

Definition oneClustering (params : Cipher.TParameters) : Cipher.TResult :=
  Cipher.mkResult [] [] 0 (inject_Z (Cipher.maxClusters params)).

#[export] Instance lib : Lib := {|
  parseCmdArguments := fun _ => ∅;
  filter := fun w _ _ _ => w;
  convert := levels;
  findKeyPresses := fun w _ _ _ _ _ => (true, onsets w 0);
  calculateSimilartyMap := fun _ _ _ kp => (true, kp, similarity kp);
  TFreqMap := unit;
  emptyFreqMap := tt;
  loadFreqMapBinary := fun fname fs m => (bool_decide (is_Some (fs !! fname)), m);
  Processor := unit;
  newProcessor := tt;
  processorInit := fun _ _ _ pr => pr;
  getClusterings := fun params _ pr => ([oneClustering params], pr);
  beamSearch := fun _ _ r => r;
  refineNearby := fun _ _ r => r
|}.

(** The capture collaborator is a flag (installed or not); whether it
    installs and whether the output file opens are the instance's two
    knobs. *)
Definition host (installOk writable : bool) : Host := {|
  AudioLoggerT := bool;
  newAudioLogger := false;
  install := fun _ _ => (installOk, installOk);
  record := fun _ _ a => a;
  terminate := fun _ => false;
  foutGood := fun _ _ => writable;
  cpmText := fun _ _ => "0.000000"
|}.

(** Ten seconds of silence at 24 kHz, as a recording on disk. *)
Definition silence : TWaveformF := replicate (Z.to_nat 240000) 0.

Definition silentDisk : FileSystem :=
  <["data/ggwords-6-gram.dat.binary" := []]> (writeRecording "silence.kbd" silence ∅).

Definition liveArgv : list string := ["keytap3-app"; "out.kbd"; "data"; "100"].

(** A disk with the n-gram table where the live program looks for it. *)
Definition liveDisk : FileSystem :=
  <["data/./ggwords-6-gram.dat.binary" := []]> ∅.

(** The live program in Idle, as [main] builds it and Loading leaves it. *)
Definition idle (installOk writable : bool) : @Live.State lib (host installOk writable) :=
  Live.set_state Live.Idle
    (@Live.initialState lib (host installOk writable)
       liveArgv 0 0 1 1500).

(** The live program as [main] hands it to the control loop: Loading,
    no worker yet. *)
Definition freshWorld : @Live.World lib (host true true) :=
  Live.mkWorld (@Live.initialState lib (host true true) liveArgv 0 0 1 1500)
    liveDisk [] None.

(** The live program after the first call of the control loop and a run
    of the Loading worker: still Loading, with [workDone] set. *)
Definition loadedWorld : @Live.World lib (host true true) :=
  Live.workerRuns 0 (Live.mainLoop [] freshWorld).2.

(** The same program just after the UI sent [start 100] and the control
    loop ran once: Recording, with the detection loop on the worker. *)
Definition recordingWorld (installOk writable : bool)
  : @Live.World lib (host installOk writable) :=
  (Live.mainLoop []
     (Live.mkWorld (Live.setData "start 100" (idle installOk writable)) liveDisk [] None)).2.

(** The schedule of a session that reaches the cap: the Loading worker
    runs during the first sleep; [start] is sent on the 500th turn; on
    the next the detection loop runs at 121 seconds. *)
Definition cappedSession : list (list Live.EnvEvent * list Live.EnvEvent) :=
  replicate 500 ([], [Live.WorkerRuns 0]) ++ [([], [Live.WorkerRuns 121]); ([], [])].

End Bench.

(** ** More vocabulary for the properties *)

(** A similarity map of dimension [d]: [d] rows of [d] cells. *)
Definition square (d : nat) (m : TSimilarityMap) : Prop :=
  length m = d /\ Forall (fun row => length row = d) m.

(** The interval [minCC, maxCC] when it holds the cells [P] picks. *)
Definition covers (m : TSimilarityMap) (P : nat -> nat -> Prop) (acc : option (Q * Q)) : Prop :=
  exists lo hi,
    acc = Some (lo, hi) /\ (lo <= hi)%Q
    /\ forall j i, P j i -> exists c, cell m j i = Some c /\ (lo <= cc c <= hi)%Q.

(** The samples the capture thread delivers in a run of events, in the
    order of delivery. *)
Definition delivered (evs : list Live.EnvEvent) : TWaveformF :=
  flat_map (fun e =>
              match e with
              | Live.AudioFrames frames => concat frames
              | Live.WorkerRuns _ => []
              end) evs.

(** What the other threads do in a run of events. *)
Definition envSteps `{L : Lib} `{H : Host} (evs : list Live.EnvEvent) (w : Live.World)
  : Live.World :=
  foldl (fun w e => Live.envStep e w) w evs.

(** A bench library whose detector reports failure. *)
Definition deafLib : Lib := {|
  parseCmdArguments := @parseCmdArguments Bench.lib;
  filter := @filter Bench.lib;
  convert := @convert Bench.lib;
  findKeyPresses := fun _ _ _ _ _ _ => (false, []);
  calculateSimilartyMap := @calculateSimilartyMap Bench.lib;
  TFreqMap := unit;
  emptyFreqMap := tt;
  loadFreqMapBinary := @loadFreqMapBinary Bench.lib;
  Processor := unit;
  newProcessor := tt;
  processorInit := @processorInit Bench.lib;
  getClusterings := @getClusterings Bench.lib;
  beamSearch := @beamSearch Bench.lib;
  refineNearby := @refineNearby Bench.lib
|}.

(** The live program in Decoding, the worker started on a waveform. *)
Definition decodingWorld (L : Lib) (waveformInput : TWaveformI16)
  : @Live.World L (Bench.host true true) :=
  Live.mkWorld
    (Live.mkState Live.Decoding "decoding"
       (@Live.StateRecording_default (Bench.host true true))
       (Live.mkStateDecoding "data" waveformInput emptyFreqMap)
       (Some (Live.mkThread Live.Decode false)) false)
    ∅ [] None.

(** A bench library that reads options the usual way: an argument [-kV]
    gives the key [k] the value [V]; a later one overrides an earlier. *)
Definition readOptions (argv : list string) : gmap string string :=
  foldl (fun m a =>
           match a with
           | String "-"%char (String k v) => <[String k EmptyString := v]> m
           | _ => m
           end) ∅ (tail argv).

Definition optionsLib : Lib := {|
  parseCmdArguments := readOptions;
  filter := @filter Bench.lib;
  convert := @convert Bench.lib;
  findKeyPresses := @findKeyPresses Bench.lib;
  calculateSimilartyMap := @calculateSimilartyMap Bench.lib;
  TFreqMap := unit;
  emptyFreqMap := tt;
  loadFreqMapBinary := @loadFreqMapBinary Bench.lib;
  Processor := unit;
  newProcessor := tt;
  processorInit := @processorInit Bench.lib;
  getClusterings := @getClusterings Bench.lib;
  beamSearch := @beamSearch Bench.lib;
  refineNearby := @refineNearby Bench.lib
|}.

(** Whether the worker gets to run in a run of events. *)
Definition workerRan (evs : list Live.EnvEvent) : bool :=
  existsb (fun e => match e with Live.WorkerRuns _ => true | Live.AudioFrames _ => false end)
    evs.

(** * Properties *)

(** ** Machine integers *)

Lemma to_int_id z : int_min <= z <= int_max -> to_int z = z.
Proof.
  unfold to_int, int_min, int_max. intros H.
  rewrite Z.mod_small; lia.
Qed.

Lemma to_int_range z : int_min <= to_int z <= int_max.
Proof.
  unfold to_int, int_min, int_max.
  pose proof (Z.mod_pos_bound (z + 2 ^ 31) (2 ^ 32) ltac:(lia)). lia.
Qed.

(** ** Round trip of the recording format *)

Lemma float_of_bytes_of_float x :
  is_float32 x ->
  float_of_bytes (Z.land x 255) (Z.land (Z.shiftr x 8) 255)
                 (Z.land (Z.shiftr x 16) 255) (Z.land (Z.shiftr x 24) 255) = x.
Proof.
  intros [Hlo Hhi]. unfold float_of_bytes.
  apply Z.bits_inj'. intros n Hn.
  assert (Hhigh : 32 <= n -> Z.testbit x n = false).
  { intros H32. destruct (Z.eq_dec x 0) as [->|Hx0]; [apply Z.bits_0|].
    apply Z.bits_above_log2; [lia|].
    apply Z.log2_lt_pow2; [lia|].
    eapply Z.lt_le_trans; [exact Hhi|]. apply Z.pow_le_mono_r; lia. }
  change 255 with (Z.ones 8).
  rewrite !Z.lor_spec.
  rewrite !Z.shiftl_spec by lia.
  rewrite !Z.land_spec.
  destruct (Z_lt_dec n 8) as [H8|H8].
  { rewrite (Z.testbit_neg_r _ (n - 8)) by lia.
    rewrite (Z.testbit_neg_r _ (n - 16)) by lia.
    rewrite (Z.testbit_neg_r _ (n - 24)) by lia.
    rewrite Z.ones_spec_low by lia.
    rewrite andb_true_r. rewrite !orb_false_r. reflexivity. }
  rewrite (Z.ones_spec_high 8 n) by lia. rewrite andb_false_r. simpl.
  destruct (Z_lt_dec n 16) as [H16|H16].
  { rewrite (Z.testbit_neg_r _ (n - 16)) by lia.
    rewrite (Z.testbit_neg_r _ (n - 24)) by lia.
    rewrite Z.shiftr_spec by lia.
    rewrite Z.ones_spec_low by lia.
    rewrite andb_true_r, !orb_false_r. f_equal. lia. }
  rewrite (Z.ones_spec_high 8 (n - 8)) by lia. rewrite andb_false_r. simpl.
  destruct (Z_lt_dec n 24) as [H24|H24].
  { rewrite (Z.testbit_neg_r _ (n - 24)) by lia.
    rewrite Z.shiftr_spec by lia.
    rewrite Z.ones_spec_low by lia.
    rewrite andb_true_r, !orb_false_r. f_equal. lia. }
  rewrite (Z.ones_spec_high 8 (n - 16)) by lia. rewrite andb_false_r. simpl.
  rewrite Z.shiftr_spec by lia.
  destruct (Z_lt_dec n 32) as [H32|H32].
  { rewrite Z.ones_spec_low by lia.
    rewrite andb_true_r. f_equal. lia. }
  rewrite (Z.ones_spec_high 8 (n - 24)) by lia. rewrite andb_false_r.
  symmetry. apply Hhigh. lia.
Qed.

Lemma raw_samples_raw_bytes (w : TWaveformF) :
  Forall is_float32 w -> raw_samples (raw_bytes w) = w.
Proof.
  induction 1 as [|x w Hx _ IH]; [reflexivity|].
  unfold raw_bytes in *. cbn [flat_map bytes_of_float app raw_samples].
  rewrite IH. f_equal. apply float_of_bytes_of_float, Hx.
Qed.

(** C8.  Saving a float waveform the way the live variant does at the end
    of Recording (the samples' four bytes each, lowest first, no header)
    and reading the file back as the batch variant does at startup gives
    the same samples, bit for bit. *)
Theorem recording_roundtrip (fname : string) (w : TWaveformF) (fs : FileSystem) :
  Forall is_float32 w ->
  readFromFile fname (writeRecording fname w fs) = Some w.
Proof.
  intros Hw. unfold readFromFile, writeRecording.
  rewrite lookup_insert_eq. cbn. f_equal. apply raw_samples_raw_bytes, Hw.
Qed.

Lemma recording_roundtrip_witness :
  readFromFile "record.kbd"
    (writeRecording "record.kbd" [0; 1065353216; 3212836864; 1056964608] ∅)
  = Some [0; 1065353216; 3212836864; 1056964608].
Proof.
  apply recording_roundtrip.
  repeat constructor; unfold is_float32; lia.
Defined.

(** ** The beam width *)

Lemma beamWidth_spec (size : Z) :
  0 <= size <= int_max ->
  beamWidth size = Z.max 100 (2100 - 10 * Z.min 200 (Z.max 0 (size - 100))).
Proof.
  unfold beamWidth, int_max. intros Hs.
  rewrite (to_int_id size) by (unfold int_min, int_max; lia).
  rewrite to_int_id by (unfold int_min, int_max; lia).
  reflexivity.
Qed.

Section ClusteringLoop.
Context {L : Lib}.
Variables (freqMap6 : TFreqMap) (similarityMap : TSimilarityMap).

Let step := clusteringStep freqMap6 similarityMap.

Lemma clusteringStep_width st k :
  Cipher.nHypothesesToKeep (params (step st k)) = Cipher.nHypothesesToKeep (params st).
Proof.
  unfold step, clusteringStep. destruct (getClusterings _ _ _); reflexivity.
Qed.

Lemma clusteringSteps_width ks st :
  Cipher.nHypothesesToKeep (params (foldl step st ks))
  = Cipher.nHypothesesToKeep (params st).
Proof.
  revert st. induction ks as [|k ks IH]; intros st; [reflexivity|].
  cbn [foldl]. rewrite IH. apply clusteringStep_width.
Qed.






End ClusteringLoop.



Lemma lastParams_mkReport a b c d e : lastParams (mkReport a b c d e) = c.
Proof. reflexivity. Qed.

Lemma width_set_hint h ps :
  Cipher.nHypothesesToKeep (Cipher.set_hint h ps) = Cipher.nHypothesesToKeep ps.
Proof. reflexivity. Qed.

Section RecoverText.
Context {L : Lib}.
Variables (n : Z) (keyPresses : TKeyPressCollection).
Variables (freqMap6 : TFreqMap) (similarityMap : TSimilarityMap).

Lemma clusteringLoop_unfold st :
  clusteringLoop freqMap6 similarityMap st
  = foldl (clusteringStep freqMap6 similarityMap) st (seq 0 16).
Proof. reflexivity. Qed.

Lemma recoverText_eq :
  recoverText n keyPresses freqMap6 similarityMap
  = mkReport
      (clusterCalls (clustered keyPresses freqMap6 similarityMap))
      (clusterings (clustered keyPresses freqMap6 similarityMap))
      (decodingParams n (clustered keyPresses freqMap6 similarityMap))
      (map (beamSearch (decodingParams n (clustered keyPresses freqMap6 similarityMap))
              freqMap6)
         (clusterings (clustered keyPresses freqMap6 similarityMap)))
      (map (refineNearby (decodingParams n (clustered keyPresses freqMap6 similarityMap))
              freqMap6)
         (map (beamSearch (decodingParams n (clustered keyPresses freqMap6 similarityMap))
                 freqMap6)
            (clusterings (clustered keyPresses freqMap6 similarityMap)))).
Proof. reflexivity. Qed.

Lemma clustered_eq :
  clustered keyPresses freqMap6 similarityMap
  = foldl (clusteringStep freqMap6 similarityMap)
      (initialClustering keyPresses freqMap6 similarityMap) (seq 0 16).
Proof. apply clusteringLoop_unfold. Qed.



Lemma recoverText_width :
  Cipher.nHypothesesToKeep (lastParams (recoverText n keyPresses freqMap6 similarityMap))
  = beamWidth (Z.of_nat (length keyPresses)).
Proof.
  rewrite recoverText_eq, lastParams_mkReport.
  unfold decodingParams. rewrite width_set_hint, clustered_eq.
  apply clusteringSteps_width.
Qed.

End RecoverText.

(** Both programs end their decoding stage with [recoverText]. *)
Lemma Batch_analyse_completes `{L : Lib} (argv2 : string) (fs : FileSystem)
    (keyPresses : TKeyPressCollection) (r : Report) :
  Batch.analyse argv2 fs keyPresses = Cont r ->
  exists kp similarityMap freqMap6,
    calculateSimilartyMap (2 * 256) (3 * 32) (2 * 256 - 128) keyPresses
    = (true, kp, similarityMap)
    /\ r = recoverText (to_int (Z.of_nat (length keyPresses))) kp freqMap6 similarityMap.
Proof.
  unfold Batch.analyse.
  destruct (calculateSimilartyMap _ _ _ keyPresses) as [[ok kp] m].
  destruct ok; cbn [check mbind Run_bind]; [|discriminate].
  destruct (similarityStats _ m); cbn [mbind Run_bind]; [|discriminate..].
  destruct (loadFreqMapBinary _ _ _) as [ok fm].
  destruct ok; cbn [check mbind Run_bind mret Run_ret]; [|discriminate].
  intros [= <-]. by exists kp, m, fm.
Qed.

Lemma Live_decodingBody_completes `{L : Lib} `{H : Host} (s : Live.State) (r : Report) :
  Live.decodingBody s = Cont r ->
  exists keyPresses kp similarityMap,
    findKeyPresses (Live.waveformInput (Live.decoding s)) [] 8 512 (2 * 1024) true
    = (true, keyPresses)
    /\ calculateSimilartyMap (3 * 256) (3 * 32) (3 * 256 - 128) keyPresses
       = (true, kp, similarityMap)
    /\ r = recoverText (to_int (Z.of_nat (length keyPresses))) kp
             (Live.freqMap6 (Live.decoding s)) similarityMap.
Proof.
  unfold Live.decodingBody.
  destruct (findKeyPresses _ _ _ _ _ _) as [ok kp0].
  destruct ok; cbn [check mbind Run_bind]; [|discriminate].
  destruct (calculateSimilartyMap _ _ _ kp0) as [[ok kp] m] eqn:Hsim.
  destruct ok; cbn [check mbind Run_bind]; [|discriminate].
  destruct (similarityStats _ m); cbn [mbind Run_bind mret Run_ret]; [|discriminate..].
  intros [= <-]. exists kp0, kp, m. by rewrite Hsim.
Qed.

(** C3.  The beam width the decoder runs with is
    max(100, 2100 - 10*min(200, max(0, n - 100))) for n detected
    keypresses: 2100 up to n = 100, then 10 less per keypress, 100 from
    n = 300 on.  [recoverText] is the block both programs run. *)
Theorem beam_width_adapts `{L : Lib} (n : Z) (keyPresses : TKeyPressCollection)
    (freqMap6 : TFreqMap) (similarityMap : TSimilarityMap) :
  let size := Z.of_nat (length keyPresses) in
  let width :=
    Cipher.nHypothesesToKeep (lastParams (recoverText n keyPresses freqMap6 similarityMap)) in
  size <= int_max ->
  width = Z.max 100 (2100 - 10 * Z.min 200 (Z.max 0 (size - 100)))
  /\ (size <= 100 -> width = 2100)
  /\ (100 <= size <= 300 -> width = 3100 - 10 * size)
  /\ (300 <= size -> width = 100).
Proof.
  intros size width Hsize.
  assert (Hw : width = Z.max 100 (2100 - 10 * Z.min 200 (Z.max 0 (size - 100)))).
  { subst width. rewrite recoverText_width.
    apply beamWidth_spec. subst size. lia. }
  rewrite Hw. clearbody width size. clear Hw.
  repeat split; intros; lia.
Qed.

Lemma beam_width_adapts_witness :
  let r := recoverText (L := Bench.lib) 150
             (replicate 150 (mkKeyPress 0 (-1))) tt [] in
  Cipher.nHypothesesToKeep (lastParams r) = 1600.
Proof.
  pose proof (beam_width_adapts (L := Bench.lib) 150
                (replicate 150 (mkKeyPress 0 (-1))) tt []) as Hbw.
  cbv zeta in Hbw.
  destruct Hbw as (_ & _ & Hmid & _).
  - rewrite length_replicate. unfold int_max. lia.
  - cbv zeta. rewrite Hmid; rewrite length_replicate; lia.
Defined.


(** ** Fewer than two keypresses *)

Section SimilarityStats.
Context {L : Lib}.

(** An n-by-n map with n at most 1 has no cell [0][1]. *)
Lemma cell_0_1_small (m : TSimilarityMap) (n : nat) :
  length m = n -> Forall (fun row => length row = n) m -> (n <= 1)%nat ->
  cell m 0 1 = None.
Proof.
  intros Hlen Hrows Hn. unfold cell.
  destruct m as [|row m]; [reflexivity|].
  cbn. inversion Hrows as [|? ? Hrow _]; subst.
  apply lookup_ge_None. cbn in *. lia.
Qed.

Lemma minmaxCC_reads_0_1 (n : Z) (m : TSimilarityMap) :
  cell m 0 1 = None -> minmaxCC n m = None.
Proof. intros Hc. unfold minmaxCC. rewrite Hc. reflexivity. Qed.

Lemma similarityStats_out_of_bounds {R} (n : Z) (m : TSimilarityMap) :
  cell m 0 1 = None -> similarityStats (R := R) n m = Broken OutOfBounds.
Proof.
  intros Hc. unfold similarityStats.
  destruct (printCorner n m); cbn; [|reflexivity].
  rewrite (minmaxCC_reads_0_1 _ _ Hc). reflexivity.
Qed.

End SimilarityStats.

(** C1.  What the batch program does from the detection on when fewer than
    two keypresses were found and the similarity engine answers, as its
    contract says, with an n-by-n map: either the engine reports failure
    and the program exits with -3, or the statistics block reads
    [similarityMap[0][1]], which does not exist.  No such run reaches
    [return 0]. *)
Theorem no_clean_exit_below_two_keypresses `{L : Lib}
    (argv2 : string) (fs : FileSystem) (keyPresses : TKeyPressCollection) :
  (length keyPresses <= 1)%nat ->
  (forall kp m,
      calculateSimilartyMap (2 * 256) (3 * 32) (2 * 256 - 128) keyPresses = (true, kp, m) ->
      length m = length keyPresses
      /\ Forall (fun row => length row = length keyPresses) m) ->
  Batch.analyse argv2 fs keyPresses = Return (-3)
  \/ Batch.analyse argv2 fs keyPresses = Broken OutOfBounds.
Proof.
  intros Hn Hsquare. unfold Batch.analyse.
  destruct (calculateSimilartyMap _ _ _ keyPresses) as [[ok kp] m] eqn:Hsim.
  destruct ok; [right|left; reflexivity].
  destruct (Hsquare kp m eq_refl) as [Hlen Hrows].
  cbn [check mbind Run_bind].
  rewrite (similarityStats_out_of_bounds _ m
             (cell_0_1_small m _ Hlen Hrows Hn)).
  reflexivity.
Qed.

Lemma no_clean_exit_below_two_keypresses_witness :
  Batch.analyse (L := Bench.lib) "data" Bench.silentDisk [] = Return (-3)
  \/ Batch.analyse (L := Bench.lib) "data" Bench.silentDisk [] = Broken OutOfBounds.
Proof.
  apply no_clean_exit_below_two_keypresses.
  - cbn. lia.
  - intros kp m Hsim. cbn in Hsim. injection Hsim as <- <-.
    split; [reflexivity|constructor].
Defined.

(** The whole batch program on ten seconds of silence: the recording is
    read, no keypress is found, the map is empty, and the read of
    [similarityMap[0][1]] is out of bounds. *)
Example batch_on_silence :
  Batch.detect (L := Bench.lib) (replicate (Z.to_nat 240000) 0) = Cont []
  /\ Batch.main (L := Bench.lib) ["keytap3"; "silence.kbd"; "data"] Bench.silentDisk
     = inr OutOfBounds.
Proof. split; vm_compute; reflexivity. Qed.

(** With one keypress the map is 1-by-1 and the same read is out of
    bounds. *)
Example batch_on_one_keypress :
  Batch.analyse (L := Bench.lib) "data" Bench.silentDisk [mkKeyPress 48000 (-1)]
  = Broken OutOfBounds.
Proof. vm_compute. reflexivity. Qed.

(** The Decoding worker of the live program has the same block. *)
Lemma decodingWorker_below_two_keypresses `{L : Lib} `{H : Host} (w : Live.World) :
  (forall kp m,
      calculateSimilartyMap (3 * 256) (3 * 32) (3 * 256 - 128)
        (findKeyPresses (Live.waveformInput (Live.decoding (Live.app w))) []
           8 512 (2 * 1024) true).2 = (true, kp, m) ->
      cell m 0 1 = None) ->
  Live.decodingWorker w = w
  \/ Live.decodingWorker w = Live.set_fault (Some OutOfBounds) w.
Proof.
  intros Hsmall. unfold Live.decodingWorker, Live.decodingBody.
  destruct (findKeyPresses _ _ _ _ _ _) as [ok kp0]. cbn [snd] in Hsmall.
  destruct ok; [|left; reflexivity].
  cbn [check mbind Run_bind].
  destruct (calculateSimilartyMap _ _ _ kp0) as [[ok kp] m] eqn:Hsim.
  destruct ok; [|left; reflexivity].
  cbn [check mbind Run_bind].
  rewrite (similarityStats_out_of_bounds _ m (Hsmall kp m eq_refl)).
  right. reflexivity.
Qed.

(** ** The live program *)

Lemma option_int_no_return (argm : gmap string string) (k : string) (dflt r : Z) :
  option_int argm k dflt = Return r -> False.
Proof.
  unfold option_int. destruct (argm !! k) as [v|]; [|discriminate].
  destruct (stoi v); discriminate.
Qed.

Section LiveProperties.
Context {L : Lib} {H : Host}.
Import Live.

(** *** The UI bridge *)



(** *** What the worker lambdas leave alone *)

Lemma loadingWorker_keeps (w : World) :
  state (app (loadingWorker w)) = state (app w)
  /\ recording (app (loadingWorker w)) = recording (app w)
  /\ worker (app (loadingWorker w)) = worker (app w)
  /\ disk (loadingWorker w) = disk w
  /\ waveformInput (decoding (app (loadingWorker w))) = waveformInput (decoding (app w)).
Proof.
  unfold loadingWorker.
  destruct (loadFreqMapBinary _ _ _) as [ok fm]. destruct ok; repeat split.
Qed.

Lemma decodingWorker_keeps (w : World) :
  state (app (decodingWorker w)) = state (app w)
  /\ recording (app (decodingWorker w)) = recording (app w)
  /\ worker (app (decodingWorker w)) = worker (app w)
  /\ disk (decodingWorker w) = disk w
  /\ waveformInput (decoding (app (decodingWorker w))) = waveformInput (decoding (app w)).
Proof.
  unfold decodingWorker. destruct (decodingBody (app w)); repeat split.
Qed.

Lemma join_keeps (w : World) :
  state (app (join w)) = state (app w)
  /\ recording (app (join w)) = recording (app w)
  /\ disk (join w) = disk w
  /\ waveformInput (decoding (app (join w))) = waveformInput (decoding (app w)).
Proof.
  unfold join. destruct (worker (app w)) as [t|]; [|repeat split].
  destruct (exited t); [repeat split|].
  destruct (job t); cbn.
  - destruct (loadingWorker_keeps w) as (? & ? & ? & ? & ?). repeat split; assumption.
  - repeat split.
  - destruct (decodingWorker_keeps w) as (? & ? & ? & ? & ?). repeat split; assumption.
Qed.

Lemma join_worker (w : World) :
  joinable (app w) = true -> worker (app (join w)) = None.
Proof.
  unfold join, joinable. destruct (worker (app w)) as [t|]; [|discriminate].
  reflexivity.
Qed.

(** C9.  [getData] returns the pending message and clears it, leaving
    the rest of the state alone; asked again at once, it returns the
    empty string. *)
Theorem getData_delivers_once (s : State) :
  (getData s).1 = dataOutput s
  /\ (getData s).2 = set_dataOutput "" s
  /\ dataOutput (getData s).2 = ""
  /\ (getData (getData s).2).1 = "".
Proof. repeat split. Qed.


(** *** The recording worker *)

Lemma updateWorker_cap (out : string) (tElapsed : Q) (r : StateRecording) :
  (2 * 60 < tElapsed)%Q ->
  doneRecording (StateRecording_updateWorker out tElapsed r).2 = true.
Proof.
  intros Hcap. unfold StateRecording_updateWorker.
  destruct (convert _ _) as [ok w16]. destruct (findKeyPresses _ _ _ _ _ _) as [ok' kp].
  assert (Hle : Qle_bool tElapsed (2 * 60) = false).
  { destruct (Qle_bool tElapsed (2 * 60)) eqn:Hb; [|reflexivity].
    apply Qle_bool_iff in Hb. exfalso. by apply (Qlt_not_le _ _ Hcap). }
  rewrite Hle. cbn [negb].
  destruct (_ <? _); reflexivity.
Qed.


Lemma updateWorker_waveformF (out : string) (tElapsed : Q) (r : StateRecording) :
  waveformF (StateRecording_updateWorker out tElapsed r).2 = waveformF r.
Proof.
  unfold StateRecording_updateWorker.
  destruct (convert _ _) as [ok w16]. destruct (findKeyPresses _ _ _ _ _ _) as [ok' kp].
  destruct (_ <? _); destruct (negb _); reflexivity.
Qed.


Lemma workerRuns_recording (tElapsed : Q) (w : World) :
  recording (app (workerRuns tElapsed w)) = recording (app w)
  \/ recording (app (workerRuns tElapsed w))
     = (StateRecording_updateWorker (dataOutput (app w)) tElapsed (recording (app w))).2.
Proof.
  unfold workerRuns. destruct (worker (app w)) as [t|] eqn:Hw; [|by left].
  destruct (exited t); [by left|].
  destruct (job t).
  - left. unfold set_exited.
    destruct (loadingWorker_keeps w) as (_ & Hr & Hwk & _).
    rewrite Hwk, Hw. cbn. exact Hr.
  - destruct (doneRecording (recording (app w))).
    + left. unfold set_exited. rewrite Hw. reflexivity.
    + right. unfold recordingWorker.
      destruct (StateRecording_updateWorker _ _ _). reflexivity.
  - left. unfold set_exited.
    destruct (decodingWorker_keeps w) as (_ & Hr & Hwk & _).
    rewrite Hwk, Hw. cbn. exact Hr.
Qed.

Lemma workerRuns_state (tElapsed : Q) (w : World) :
  state (app (workerRuns tElapsed w)) = state (app w).
Proof.
  unfold workerRuns. destruct (worker (app w)) as [t|] eqn:Hw; [|reflexivity].
  destruct (exited t); [reflexivity|].
  destruct (job t).
  - unfold set_exited.
    destruct (loadingWorker_keeps w) as (Hs & _ & Hwk & _).
    rewrite Hwk, Hw. cbn. exact Hs.
  - destruct (doneRecording (recording (app w))).
    + unfold set_exited. rewrite Hw. reflexivity.
    + cbn. unfold recordingWorker.
      destruct (StateRecording_updateWorker _ _ _). reflexivity.
  - unfold set_exited.
    destruct (decodingWorker_keeps w) as (Hs & _ & Hwk & _).
    rewrite Hwk, Hw. cbn. exact Hs.
Qed.

Lemma updateWorker_keeps (out : string) (tElapsed : Q) (r : StateRecording) :
  let r' := (StateRecording_updateWorker out tElapsed r).2 in
  nKeysHave r <= nKeysHave r'
  /\ (doneRecording r = true -> doneRecording r' = true)
  /\ nKeysToCapture r' = nKeysToCapture r
  /\ isStarted r' = isStarted r.
Proof.
  unfold StateRecording_updateWorker.
  destruct (convert _ _) as [ok w16]. destruct (findKeyPresses _ _ _ _ _ _) as [ok' kp].
  cbn [keyPresses set_keyPresses set_waveformI16 set_waveformFWork nKeysHave].
  destruct (_ <? _) eqn:Hgrow; destruct (negb _); cbn; repeat split;
    try apply Z.ltb_lt in Hgrow; try lia; try done.
Qed.

Lemma cbAudio_keeps (frames : list (list TSampleF)) (r : StateRecording) :
  waveformF (cbAudio frames r) = waveformF r ++ concat frames
  /\ nKeysHave (cbAudio frames r) = nKeysHave r
  /\ (doneRecording r = true -> doneRecording (cbAudio frames r) = true).
Proof.
  unfold cbAudio. cbn. destruct (_ && _); cbn; repeat split; done.
Qed.

(** *** What the other threads and the control loop keep *)

Lemma update_keeps (r : StateRecording) :
  doneRecording (StateRecording_update r) = doneRecording r
  /\ pathOutput (StateRecording_update r) = pathOutput r
  /\ waveformF (StateRecording_update r) = waveformF r
  /\ waveformI16 (StateRecording_update r) = waveformI16 r.
Proof.
  unfold StateRecording_update.
  destruct (negb (isStarted r)); [repeat split|].
  destruct (doRecord r); repeat split.
Qed.

Lemma updateWorker_pathOutput (out : string) (tElapsed : Q) (r : StateRecording) :
  pathOutput (StateRecording_updateWorker out tElapsed r).2 = pathOutput r.
Proof.
  unfold StateRecording_updateWorker.
  destruct (convert _ _) as [ok w16]. destruct (findKeyPresses _ _ _ _ _ _) as [ok' kp].
  destruct (_ <? _); destruct (negb _); reflexivity.
Qed.

Lemma init_pathOutput (r : StateRecording) :
  pathOutput (StateRecording_init r).2 = pathOutput r.
Proof.
  unfold StateRecording_init.
  destruct (isStarted r && negb (doneRecording r)); [reflexivity|].
  destruct (install _ _) as [ok logger]. reflexivity.
Qed.

Lemma setData_pathOutput (data : string) (s : State) :
  pathOutput (recording (setData data s)) = pathOutput (recording s).
Proof.
  unfold setData. destruct (extract_word data) as [cmd rest].
  destruct (String.eqb cmd "start").
  - destruct (state s); try reflexivity.
    destruct (extract_int rest); cbn [recording set_recording set_state];
      rewrite init_pathOutput; reflexivity.
  - destruct (String.eqb cmd "stop"); reflexivity.
Qed.

Lemma workerRuns_disk (tElapsed : Q) (w : World) :
  disk (workerRuns tElapsed w) = disk w.
Proof.
  unfold workerRuns. destruct (worker (app w)) as [t|] eqn:Hw; [|reflexivity].
  destruct (exited t); [reflexivity|].
  destruct (job t).
  - unfold set_exited.
    destruct (loadingWorker_keeps w) as (_ & _ & Hwk & Hd & _).
    rewrite Hwk, Hw. cbn. exact Hd.
  - destruct (doneRecording (recording (app w))).
    + unfold set_exited. rewrite Hw. reflexivity.
    + reflexivity.
  - unfold set_exited.
    destruct (decodingWorker_keeps w) as (_ & _ & Hwk & Hd & _).
    rewrite Hwk, Hw. cbn. exact Hd.
Qed.

Lemma envStep_keeps (e : EnvEvent) (w : World) :
  state (app (envStep e w)) = state (app w)
  /\ disk (envStep e w) = disk w
  /\ pathOutput (recording (app (envStep e w))) = pathOutput (recording (app w)).
Proof.
  destruct e as [t|frames]; cbn [envStep].
  - split; [apply workerRuns_state|]. split; [apply workerRuns_disk|].
    destruct (workerRuns_recording t w) as [-> | ->]; [reflexivity|].
    apply updateWorker_pathOutput.
  - repeat split. cbn. unfold cbAudio. destruct (_ && _); reflexivity.
Qed.

Lemma during_keeps (evs : list EnvEvent) (w : World) :
  state (app (during evs w)) = state (app w)
  /\ disk (during evs w) = disk w
  /\ pathOutput (recording (app (during evs w))) = pathOutput (recording (app w)).
Proof.
  unfold during. revert w. induction evs as [|e evs IH]; intros w; [repeat split|].
  cbn [foldl]. destruct (IH (envStep e w)) as (-> & -> & ->). apply envStep_keeps.
Qed.

Lemma startLoading_keeps (w : World) :
  state (app (startLoading w)) = state (app w)
  /\ disk (startLoading w) = disk w
  /\ recording (app (startLoading w)) = recording (app w)
  /\ workDone (app (startLoading w)) = workDone (app w)
  /\ joinable (app (startLoading w)) = true.
Proof.
  unfold startLoading. destruct (joinable (app w)) eqn:Hj; repeat split. exact Hj.
Qed.

Lemma startRecording_keeps (w : World) :
  state (app (startRecording w)) = state (app w)
  /\ disk (startRecording w) = disk w
  /\ recording (app (startRecording w)) = StateRecording_update (recording (app w))
  /\ joinable (app (startRecording w)) = true.
Proof.
  unfold startRecording. cbn [app set_app worker set_recording joinable].
  destruct (joinable _) eqn:Hj; repeat split. exact Hj.
Qed.

Lemma startDecoding_keeps (w : World) :
  state (app (startDecoding w)) = state (app w)
  /\ disk (startDecoding w) = disk w
  /\ recording (app (startDecoding w)) = recording (app w)
  /\ joinable (app (startDecoding w)) = true.
Proof.
  unfold startDecoding. destruct (joinable (app w)) eqn:Hj; repeat split. exact Hj.
Qed.

Lemma during_joinable (evs : list EnvEvent) (w : World) :
  joinable (app w) = true -> joinable (app (during evs w)) = true.
Proof.
  unfold during. revert w. induction evs as [|e evs IH]; intros w Hj; [exact Hj|].
  cbn [foldl]. apply IH. destruct e as [t|frames]; cbn [envStep]; [|exact Hj].
  unfold joinable in *. unfold workerRuns.
  destruct (worker (app w)) as [th|] eqn:Hw; [|discriminate].
  destruct (exited th); [by rewrite Hw|].
  destruct (job th).
  - unfold set_exited. destruct (loadingWorker_keeps w) as (_ & _ & Hwk & _).
    rewrite Hwk, Hw. reflexivity.
  - destruct (doneRecording (recording (app w))).
    + unfold set_exited. rewrite Hw. reflexivity.
    + cbn. unfold recordingWorker. destruct (StateRecording_updateWorker _ _ _).
      cbn. by rewrite Hw.
  - unfold set_exited. destruct (decodingWorker_keeps w) as (_ & _ & Hwk & _).
    rewrite Hwk, Hw. reflexivity.
Qed.

(** *** The control loop *)

Lemma finishLoading_keeps (w : World) :
  (finishLoading w).1 = true
  /\ disk (finishLoading w).2 = disk w
  /\ recording (app (finishLoading w).2) = recording (app w).
Proof.
  unfold finishLoading. destruct (workDone (app w)); [|repeat split].
  destruct (join_keeps w) as (_ & Hr & Hd & _). repeat split; assumption.
Qed.

Lemma finishDecoding_keeps (w : World) :
  (finishDecoding w).1 = true
  /\ disk (finishDecoding w).2 = disk w
  /\ recording (app (finishDecoding w).2) = recording (app w).
Proof.
  unfold finishDecoding. destruct (workDone (app w)); [|repeat split].
  destruct (join_keeps w) as (_ & Hr & Hd & _). repeat split; assumption.
Qed.

Lemma finishRecording_pathOutput (w : World) :
  pathOutput (recording (app (finishRecording w).2)) = pathOutput (recording (app w)).
Proof.
  unfold finishRecording. destruct (doneRecording (recording (app w))); [|reflexivity].
  match goal with |- context [join ?w0] =>
    destruct (join_keeps w0) as (_ & Hr & _); set (wj := join w0) in * end.
  destruct (negb (foutGood _ _)); cbn; rewrite Hr; reflexivity.
Qed.

(** The second [if] of the Recording case gives up only when the
    recording is done and its output file does not open; the world is then
    as it was at the test, but for the worker, which is joined, and the
    capture collaborator, which is terminated. *)
Lemma finishRecording_false (w : World) :
  (finishRecording w).1 = false ->
  doneRecording (recording (app w)) = true
  /\ state (app (finishRecording w).2) = state (app w)
  /\ disk (finishRecording w).2 = disk w
  /\ foutGood (pathOutput (recording (app w))) (disk w) = false.
Proof.
  unfold finishRecording.
  destruct (doneRecording (recording (app w))); [|discriminate].
  match goal with |- context [join ?w0] =>
    destruct (join_keeps w0) as (Hs & Hr & Hd & _); set (wj := join w0) in * end.
  destruct (foutGood _ _) eqn:Hgood; [discriminate|].
  intros _. cbn [fst snd negb]. rewrite Hs, Hd. rewrite Hr, Hd in Hgood.
  repeat split. exact Hgood.
Qed.

(** The loop gives up only in Recording. *)
Lemma mainLoop_false (mid : list EnvEvent) (w : World) :
  (mainLoop mid w).1 = false ->
  state (app w) = Recording
  /\ mainLoop mid w = finishRecording (during mid (startRecording w)).
Proof.
  unfold mainLoop. destruct (state (app w)) eqn:Hst.
  - intros Hf. by rewrite (proj1 (finishLoading_keeps _)) in Hf.
  - discriminate.
  - by split.
  - intros Hf. by rewrite (proj1 (finishDecoding_keeps _)) in Hf.
Qed.

Lemma mainLoop_pathOutput (mid : list EnvEvent) (w : World) :
  pathOutput (recording (app (mainLoop mid w).2)) = pathOutput (recording (app w)).
Proof.
  unfold mainLoop. destruct (state (app w)).
  - destruct (finishLoading_keeps (during mid (startLoading w))) as (_ & _ & ->).
    destruct (during_keeps mid (startLoading w)) as (_ & _ & ->).
    by destruct (startLoading_keeps w) as (_ & _ & -> & _).
  - cbn [snd]. by destruct (during_keeps mid w) as (_ & _ & ->).
  - rewrite finishRecording_pathOutput.
    destruct (during_keeps mid (startRecording w)) as (_ & _ & ->).
    destruct (startRecording_keeps w) as (_ & _ & -> & _).
    apply update_keeps.
  - destruct (finishDecoding_keeps (during mid (startDecoding w))) as (_ & _ & ->).
    destruct (during_keeps mid (startDecoding w)) as (_ & _ & ->).
    by destruct (startDecoding_keeps w) as (_ & _ & -> & _).
Qed.

(** How the native loop can end: with a fault, or with 0 in the world a
    call of [mainLoop] that returned [false] left. *)
Lemma nativeLoop_exit (sched : list (list EnvEvent * list EnvEvent)) (nLoops : Z)
    (w : World) (code : Z) (w' : World) :
  nativeLoop sched nLoops w = Some (inl code, w') ->
  code = 0
  /\ state (app w') = Recording
  /\ foutGood (pathOutput (recording (app w'))) (disk w') = false
  /\ pathOutput (recording (app w')) = pathOutput (recording (app w)).
Proof.
  revert nLoops w. induction sched as [|[mid evs] sched IH]; intros nLoops w; [discriminate|].
  cbn [nativeLoop]. destruct (mainLoop mid w) as [continue w1] eqn:Hloop.
  assert (Hp1 : pathOutput (recording (app w1)) = pathOutput (recording (app w))).
  { pose proof (mainLoop_pathOutput mid w) as Hp. by rewrite Hloop in Hp. }
  destruct (fault w1); [discriminate|].
  destruct continue; cbn [negb].
  - destruct (fault _); [discriminate|].
    intros Hrest. apply IH in Hrest as (-> & Hs & Hf & Hp).
    split; [reflexivity|]. split; [exact Hs|]. split; [exact Hf|].
    rewrite Hp, <- Hp1.
    destruct (during_keeps evs w1) as (_ & _ & Hpd).
    destruct (_ =? 0); cbn [app set_app]; [rewrite setData_pathOutput|]; exact Hpd.
  - intros [= <- <-]. split; [reflexivity|].
    assert (Hfalse : (mainLoop mid w).1 = false) by (by rewrite Hloop).
    destruct (mainLoop_false mid w Hfalse) as [Hst Heq].
    rewrite Heq in Hloop, Hfalse.
    set (wt := during mid (startRecording w)) in *.
    destruct (finishRecording_false wt Hfalse) as (_ & Hs & Hd & Hbad).
    pose proof (finishRecording_pathOutput wt) as Hp.
    rewrite Hloop in Hs, Hd, Hp. cbn [snd] in Hs, Hd, Hp.
    split; [|split; [|exact Hp1]].
    + rewrite Hs. subst wt. destruct (during_keeps mid (startRecording w)) as (-> & _).
      by destruct (startRecording_keeps w) as (-> & _).
    + by rewrite Hp, Hd.
Qed.

Lemma argState_initialState (argv : list string) (s : State) :
  argState argv = Cont s ->
  exists c n F f,
    s = initialState argv c n F f
    /\ option_int (parseCmdArguments argv) "C" 0 = Cont n
    /\ (4 <= length argv)%nat.
Proof.
  unfold argState.
  destruct (Z.of_nat (length argv) <? 4) eqn:Hargc; cbn [negb check mbind Run_bind];
    [discriminate|].
  apply Z.ltb_ge in Hargc.
  destruct (option_int _ "c" 0) as [c|r|]; cbn [mbind Run_bind]; [|discriminate..].
  destruct (option_int _ "C" 0) as [n|r|]; cbn [mbind Run_bind]; [|discriminate..].
  destruct (option_int _ "F" _) as [F|r|]; cbn [mbind Run_bind]; [|discriminate..].
  destruct (option_int _ "f" _) as [f|r|]; cbn [mbind Run_bind mret Run_ret];
    [|discriminate..].
  intros [= <-]. exists c, n, F, f. split; [reflexivity|]. split; [reflexivity|lia].
Qed.

Lemma argState_return (argv : list string) (code : Z) :
  argState argv = Return code -> code = -1 /\ (length argv < 4)%nat.
Proof.
  unfold argState.
  destruct (Z.of_nat (length argv) <? 4) eqn:Hargc; cbn [negb check mbind Run_bind].
  - intros [= <-]. split; [reflexivity|]. apply Z.ltb_lt in Hargc. lia.
  - destruct (option_int _ "c" 0) as [c|r|] eqn:Hc; cbn [mbind Run_bind];
      [|by apply option_int_no_return in Hc|discriminate].
    destruct (option_int _ "C" 0) as [c'|r|] eqn:Hc'; cbn [mbind Run_bind];
      [|by apply option_int_no_return in Hc'|discriminate].
    destruct (option_int _ "F" _) as [F|r|] eqn:HF; cbn [mbind Run_bind];
      [|by apply option_int_no_return in HF|discriminate].
    destruct (option_int _ "f" _) as [f|r|] eqn:Hf; cbn [mbind Run_bind];
      [|by apply option_int_no_return in Hf|discriminate].
    discriminate.
Qed.

(** An exit code of the live program is -1, for too few arguments, or 0,
    from the world the native loop ended in. *)
Lemma main_exit (argv : list string) (fs : FileSystem)
    (sched : list (list EnvEvent * list EnvEvent)) (code : Z) :
  main argv fs sched = Some (inl code) ->
  (code = -1 /\ (length argv < 4)%nat)
  \/ (code = 0 /\ (4 <= length argv)%nat
      /\ exists s w,
           argState argv = Cont s
           /\ nativeLoop sched 500 (mkWorld s fs [] None) = Some (inl 0, w)
           /\ state (app w) = Recording
           /\ pathOutput (recording (app w)) = default "" (argv !! 1%nat)
           /\ foutGood (default "" (argv !! 1%nat)) (disk w) = false).
Proof.
  unfold main. destruct (argState argv) as [s|r|f] eqn:Hargs.
  - cbn [AppInterface_init doInit negb].
    destruct (nativeLoop sched 500 _) as [[e w]|] eqn:Hloop; [|discriminate].
    cbn. intros [= ->].
    destruct (nativeLoop_exit _ _ _ _ _ Hloop) as (-> & Hs & Hf & Hp).
    destruct (argState_initialState argv s Hargs) as (c & n & F & f & -> & _ & Hargc).
    cbn in Hp. rewrite Hp in Hf.
    right. split; [reflexivity|]. split; [exact Hargc|].
    eexists _, w. repeat split; eassumption.
  - intros [= <-]. left. by apply argState_return.
  - discriminate.
Qed.

(** Once [doneRecording] is set, the other threads leave the flag and the
    converted waveform alone: the detection loop only comes to its end,
    the callback only appends to the float waveform. *)
Lemma workerRuns_done (tElapsed : Q) (w : World) :
  doneRecording (recording (app w)) = true ->
  recording (app (workerRuns tElapsed w)) = recording (app w).
Proof.
  intros Hdone. unfold workerRuns. destruct (worker (app w)) as [t|] eqn:Hw; [|reflexivity].
  destruct (exited t); [reflexivity|].
  destruct (job t).
  - unfold set_exited. destruct (loadingWorker_keeps w) as (_ & Hr & Hwk & _).
    rewrite Hwk, Hw. cbn. exact Hr.
  - rewrite Hdone. unfold set_exited. rewrite Hw. reflexivity.
  - unfold set_exited. destruct (decodingWorker_keeps w) as (_ & Hr & Hwk & _).
    rewrite Hwk, Hw. cbn. exact Hr.
Qed.

Lemma during_done (evs : list EnvEvent) (w : World) :
  doneRecording (recording (app w)) = true ->
  doneRecording (recording (app (during evs w))) = true
  /\ waveformI16 (recording (app (during evs w))) = waveformI16 (recording (app w)).
Proof.
  unfold during. revert w. induction evs as [|e evs IH]; intros w Hdone; [by split|].
  cbn [foldl].
  assert (He : doneRecording (recording (app (envStep e w))) = true
               /\ waveformI16 (recording (app (envStep e w)))
                  = waveformI16 (recording (app w))).
  { destruct e as [t|frames]; cbn [envStep].
    - rewrite (workerRuns_done t w Hdone). by split.
    - cbn. split; [by apply cbAudio_keeps|].
      unfold cbAudio. destruct (_ && _); reflexivity. }
  destruct He as [He1 He2]. destruct (IH _ He1) as [IH1 IH2].
  split; [exact IH1|]. by rewrite IH2.
Qed.

(** The second [if] of the Recording case, when the recording is done
    and the output file opens. *)
Lemma finishRecording_saves (w : World) :
  doneRecording (recording (app w)) = true ->
  joinable (app w) = true ->
  foutGood (pathOutput (recording (app w))) (disk w) = true ->
  let w' := (finishRecording w).2 in
  (finishRecording w).1 = true
  /\ state (app w') = Decoding
  /\ dataOutput (app w') = "decoding"
  /\ worker (app w') = None
  /\ waveformInput (decoding (app w')) = waveformI16 (recording (app w))
  /\ audioLogger (recording (app w')) = terminate (audioLogger (recording (app w)))
  /\ disk w'
     = writeRecording (pathOutput (recording (app w))) (waveformF (recording (app w)))
         (disk w).
Proof.
  intros Hdone Hj Hgood. unfold finishRecording. rewrite Hdone. cbv zeta.
  match goal with |- context [join ?w0] =>
    assert (Hj0 : joinable (app w0) = true) by exact Hj;
    destruct (join_keeps w0) as (_ & Hr & Hd & _);
    pose proof (join_worker w0 Hj0) as Hwk;
    set (wj := join w0) in * end.
  clearbody wj. cbn [app set_app recording set_recording disk] in Hr, Hd.
  rewrite Hr, Hd. cbn [pathOutput set_audioLogger]. rewrite Hgood. cbn.
  repeat split. exact Hwk.
Qed.

Lemma finishRecording_stuck (w : World) :
  doneRecording (recording (app w)) = true ->
  foutGood (pathOutput (recording (app w))) (disk w) = false ->
  (finishRecording w).1 = false
  /\ state (app (finishRecording w).2) = state (app w).
Proof.
  intros Hdone Hbad. unfold finishRecording. rewrite Hdone. cbv zeta.
  match goal with |- context [join ?w0] =>
    destruct (join_keeps w0) as (Hs & Hr & Hd & _); set (wj := join w0) in * end.
  clearbody wj. cbn [app set_app recording set_recording disk state] in Hs, Hr, Hd.
  rewrite Hr, Hd. cbn [pathOutput set_audioLogger]. rewrite Hbad. cbn. by split.
Qed.

(** As long as the worker does not get to run, all the other threads
    change is the recording state. *)
Lemma during_quiet (evs : list EnvEvent) (w : World) :
  workerRan evs = false ->
  during evs w = set_app (set_recording (recording (app (during evs w))) (app w)) w.
Proof.
  unfold during, workerRan. revert w. induction evs as [|e evs IH]; intros w Hq.
  - cbn [foldl]. by destruct w as [[]].
  - cbn [foldl]. destruct e as [t|frames]; [discriminate|].
    cbn [existsb orb] in Hq. rewrite (IH _ Hq). reflexivity.
Qed.

(** A call in Decoding with no worker, during which the worker does not
    get to run, starts the worker and leaves the state alone. *)
Lemma mainLoop_starts_decoding (mid : list EnvEvent) (w : World) :
  state (app w) = Decoding ->
  worker (app w) = None ->
  workerRan mid = false ->
  let w' := (mainLoop mid w).2 in
  state (app w') = Decoding
  /\ worker (app w') = Some (mkThread Decode false)
  /\ decoding (app w') = decoding (app w)
  /\ forall t, workerRuns t w' = set_exited (decodingWorker w').
Proof.
  intros Hst Hwk Hq. cbv zeta. unfold mainLoop. rewrite Hst.
  unfold startDecoding, joinable. rewrite Hwk. cbn [negb].
  rewrite during_quiet by exact Hq. set (r := recording _). clearbody r.
  unfold finishDecoding. cbn. split; [exact Hst|]. repeat split.
Qed.

(** C5, as the code has it.  A call of [mainLoop] changes the state only
    from Loading to Idle, from Recording to Decoding or from Decoding to
    Idle, and only when its own test finds the flag for the work of the
    state it leaves set: [workDone] in Loading and Decoding,
    [doneRecording] in Recording, where the capture collaborator is
    terminated first.  The flag is read after whatever the other threads
    did during the call ([mid]), so the worker started by this very call
    may be the one that set it.  A worker is there at the test and has
    been joined when the call returns. *)
Theorem mainLoop_joins_before_transition (mid : list EnvEvent) (w : World) :
  let w' := (mainLoop mid w).2 in
  state (app w') <> state (app w) ->
  worker (app w') = None
  /\ ((state (app w) = Loading /\ state (app w') = Idle
       /\ workDone (app (during mid (startLoading w))) = true
       /\ joinable (app (during mid (startLoading w))) = true)
      \/ (state (app w) = Recording /\ state (app w') = Decoding
          /\ doneRecording (recording (app (during mid (startRecording w)))) = true
          /\ joinable (app (during mid (startRecording w))) = true
          /\ audioLogger (recording (app w'))
             = terminate (audioLogger (recording (app (during mid (startRecording w))))))
      \/ (state (app w) = Decoding /\ state (app w') = Idle
          /\ workDone (app (during mid (startDecoding w))) = true
          /\ joinable (app (during mid (startDecoding w))) = true)).
Proof.
  unfold mainLoop. destruct (state (app w)) eqn:Hst.
  - (* Loading *)
    set (wt := during mid (startLoading w)).
    assert (Hj : joinable (app wt) = true).
    { apply during_joinable. apply startLoading_keeps. }
    assert (Hs : state (app wt) = Loading).
    { subst wt. destruct (during_keeps mid (startLoading w)) as (-> & _).
      destruct (startLoading_keeps w) as (-> & _). exact Hst. }
    unfold finishLoading. destruct (workDone (app wt)) eqn:Hdone.
    + intros _. cbn. split; [by apply join_worker|].
      left. repeat split. exact Hj.
    + cbn. congruence.
  - cbn. destruct (during_keeps mid w) as (-> & _). congruence.
  - (* Recording *)
    set (wt := during mid (startRecording w)).
    assert (Hj : joinable (app wt) = true).
    { apply during_joinable. apply startRecording_keeps. }
    assert (Hs : state (app wt) = Recording).
    { subst wt. destruct (during_keeps mid (startRecording w)) as (-> & _).
      destruct (startRecording_keeps w) as (-> & _). exact Hst. }
    destruct (doneRecording (recording (app wt))) eqn:Hdone.
    + destruct (foutGood (pathOutput (recording (app wt))) (disk wt)) eqn:Hgood.
      * destruct (finishRecording_saves wt Hdone Hj Hgood)
          as (_ & Hs' & _ & Hwk & _ & Hlog & _).
        intros _. split; [exact Hwk|].
        right. left. repeat split; assumption.
      * destruct (finishRecording_stuck wt Hdone Hgood) as (_ & Hs').
        rewrite Hs', Hs. congruence.
    + unfold finishRecording. rewrite Hdone. cbn. congruence.
  - (* Decoding *)
    set (wt := during mid (startDecoding w)).
    assert (Hj : joinable (app wt) = true).
    { apply during_joinable. apply startDecoding_keeps. }
    assert (Hs : state (app wt) = Decoding).
    { subst wt. destruct (during_keeps mid (startDecoding w)) as (-> & _).
      destruct (startDecoding_keeps w) as (-> & _). exact Hst. }
    unfold finishDecoding. destruct (workDone (app wt)) eqn:Hdone.
    + intros _. cbn. split; [by apply join_worker|].
      right. right. repeat split. exact Hj.
    + cbn. congruence.
Qed.

(** What is saved at the end of Recording is the float waveform as the
    callback assembled it. *)
Lemma mainLoop_saves_waveformF (w : World) :
  state (app w) = Recording ->
  doneRecording (recording (app w)) = true ->
  foutGood (pathOutput (recording (app w))) (disk w) = true ->
  disk (mainLoop [] w).2
  = writeRecording (pathOutput (recording (app w))) (waveformF (recording (app w))) (disk w).
Proof.
  intros Hst Hdone Hgood. unfold mainLoop. rewrite Hst. unfold during. cbn [foldl].
  destruct (startRecording_keeps w) as (_ & Hd & Hr & Hj).
  destruct (update_keeps (recording (app w))) as (Hu1 & Hu2 & Hu3 & _).
  set (wt := startRecording w) in *. clearbody wt.
  assert (Hdone' : doneRecording (recording (app wt)) = true) by (by rewrite Hr, Hu1).
  assert (Hgood' : foutGood (pathOutput (recording (app wt))) (disk wt) = true).
  { by rewrite Hr, Hu2, Hd. }
  destruct (finishRecording_saves wt Hdone' Hj Hgood') as (_ & _ & _ & _ & _ & _ & ->).
  by rewrite Hr, Hu2, Hu3, Hd.
Qed.

(** C6, as the code has it.  When the detection loop runs past two
    minutes it sets [doneRecording].  The next call of [mainLoop],
    whatever the other threads do during it, then either finds that the
    output file does not open, returns [false] and stays in Recording, or
    saves the recording and moves to Decoding with the waveform the worker
    last converted; the call after that, as long as the new worker has
    not run by its end, starts the Decoding worker on it. *)
Theorem recording_cap_then_decoding (w : World) (tElapsed : Q) (mid : list EnvEvent) :
  state (app w) = Recording ->
  worker (app w) = Some (mkThread KeepDetecting false) ->
  doneRecording (recording (app w)) = false ->
  (2 * 60 < tElapsed)%Q ->
  let w1 := workerRuns tElapsed w in
  doneRecording (recording (app w1)) = true
  /\ (foutGood (pathOutput (recording (app w))) (disk w) = false ->
      (mainLoop mid w1).1 = false /\ state (app (mainLoop mid w1).2) = Recording)
  /\ (foutGood (pathOutput (recording (app w))) (disk w) = true ->
      let w2 := (mainLoop mid w1).2 in
      (mainLoop mid w1).1 = true
      /\ state (app w2) = Decoding
      /\ dataOutput (app w2) = "decoding"
      /\ worker (app w2) = None
      /\ waveformInput (decoding (app w2)) = waveformI16 (recording (app w1))
      /\ forall mid' : list EnvEvent,
           workerRan mid' = false ->
           let w3 := (mainLoop mid' w2).2 in
           state (app w3) = Decoding
           /\ worker (app w3) = Some (mkThread Decode false)
           /\ waveformInput (decoding (app w3)) = waveformI16 (recording (app w1))
           /\ forall t, workerRuns t w3 = set_exited (decodingWorker w3)).
Proof.
  intros Hst Hworker Hnot Hcap w1.
  assert (Hw1 : w1 = set_app (recordingWorker tElapsed (app w)) w).
  { subst w1. unfold workerRuns. rewrite Hworker. cbn. by rewrite Hnot. }
  assert (Hrec : recording (app w1)
                 = (StateRecording_updateWorker (dataOutput (app w)) tElapsed
                      (recording (app w))).2).
  { rewrite Hw1. unfold recordingWorker.
    destruct (StateRecording_updateWorker _ _ _); reflexivity. }
  assert (Hdone : doneRecording (recording (app w1)) = true).
  { rewrite Hrec. by apply updateWorker_cap. }
  assert (Hst1 : state (app w1) = Recording).
  { rewrite Hw1. unfold recordingWorker.
    destruct (StateRecording_updateWorker _ _ _); exact Hst. }
  assert (Hdisk1 : disk w1 = disk w) by (rewrite Hw1; reflexivity).
  assert (Hpath1 : pathOutput (recording (app w1)) = pathOutput (recording (app w))).
  { rewrite Hrec. apply updateWorker_pathOutput. }
  clearbody w1.
  (* the call of mainLoop that sees the flag *)
  assert (Hloop : mainLoop mid w1 = finishRecording (during mid (startRecording w1))).
  { unfold mainLoop. by rewrite Hst1. }
  destruct (startRecording_keeps w1) as (Hs0 & Hd0 & Hr0 & Hj0).
  destruct (update_keeps (recording (app w1))) as (Hu1 & Hu2 & _ & Hu4).
  destruct (during_keeps mid (startRecording w1)) as (Hst' & Hdt & Hpt).
  assert (Hdone0 : doneRecording (recording (app (startRecording w1))) = true).
  { by rewrite Hr0, Hu1. }
  destruct (during_done mid (startRecording w1) Hdone0) as (Hdonet & Hi16).
  pose proof (during_joinable mid (startRecording w1) Hj0) as Hjt.
  set (wt := during mid (startRecording w1)) in *. clearbody wt.
  rewrite Hs0, Hst1 in Hst'. rewrite Hd0, Hdisk1 in Hdt.
  rewrite Hr0, Hu2, Hpath1 in Hpt. rewrite Hr0, Hu4 in Hi16.
  split; [exact Hdone|]. split.
  - intros Hbad. rewrite Hloop.
    assert (Hbad' : foutGood (pathOutput (recording (app wt))) (disk wt) = false).
    { by rewrite Hpt, Hdt. }
    destruct (finishRecording_stuck wt Hdonet Hbad') as (Hf & Hs).
    split; [exact Hf|]. by rewrite Hs.
  - intros Hgood. cbn zeta. rewrite Hloop.
    assert (Hgood' : foutGood (pathOutput (recording (app wt))) (disk wt) = true).
    { by rewrite Hpt, Hdt. }
    destruct (finishRecording_saves wt Hdonet Hjt Hgood')
      as (Hc & Hs2 & Hout & Hwk2 & Hin & _).
    set (w2 := (finishRecording wt).2) in *. clearbody w2.
    rewrite Hi16 in Hin.
    split; [exact Hc|]. split; [exact Hs2|]. split; [exact Hout|].
    split; [exact Hwk2|]. split; [exact Hin|].
    intros mid' Hquiet.
    destruct (mainLoop_starts_decoding mid' w2 Hs2 Hwk2 Hquiet) as (Hs3 & Hwk3 & Hd3 & Hrun).
    split; [exact Hs3|]. split; [exact Hwk3|]. split; [by rewrite Hd3|exact Hrun].
Qed.

(** C7, as the code has it.  The live program exits with -1 when it is
    given fewer than three arguments, whatever the files and the other
    threads, and with no other code but 0; it exits with 0 only from the
    world in which a call of [mainLoop] of this very run returned
    [false]: in Recording, with the output file named by the first
    argument not opening.  No run exits with -4 or -5. *)
Theorem live_exit_codes (argv : list string) (fs : FileSystem)
    (sched : list (list EnvEvent * list EnvEvent)) :
  ((length argv < 4)%nat -> main argv fs sched = Some (inl (-1)))
  /\ forall code : Z,
       main argv fs sched = Some (inl code) ->
       (code = -1 /\ (length argv < 4)%nat)
       \/ (code = 0 /\ (4 <= length argv)%nat
           /\ exists s w,
                argState argv = Cont s
                /\ nativeLoop sched 500 (mkWorld s fs [] None) = Some (inl 0, w)
                /\ state (app w) = Recording
                /\ pathOutput (recording (app w)) = default "" (argv !! 1%nat)
                /\ foutGood (default "" (argv !! 1%nat)) (disk w) = false).
Proof.
  split.
  - intros Hargc. unfold main, argState.
    assert (Hlt : (Z.of_nat (length argv) <? 4) = true) by (apply Z.ltb_lt; lia).
    rewrite Hlt. reflexivity.
  - intros code Hmain. by apply main_exit.
Qed.

End LiveProperties.

(** ** The live program on the bench *)



(** The worker started by a call finishes while that call runs: the
    program enters the call in Loading with no worker and [workDone] not
    set, and leaves it in Idle with the worker joined. *)
Lemma mainLoop_joins_before_transition_witness :
  let w := Bench.freshWorld in
  let w' := (Live.mainLoop [Live.WorkerRuns 0] w).2 in
  Live.state (Live.app w) = Live.Loading
  /\ Live.worker (Live.app w) = None
  /\ Live.workDone (Live.app w) = false
  /\ Live.state (Live.app w') = Live.Idle
  /\ Live.worker (Live.app w') = None
  /\ Live.workDone
       (Live.app (Live.during [Live.WorkerRuns 0] (Live.startLoading w))) = true.
Proof.
  destruct (mainLoop_joins_before_transition [Live.WorkerRuns 0] Bench.freshWorld)
    as [Hjoined [(Hfrom & Hto & Hdone & _) | [(Hfrom & _) | (Hfrom & _)]]].
  - vm_compute. discriminate.
  - cbv zeta. split; [exact Hfrom|]. split; [reflexivity|]. split; [reflexivity|].
    split; [exact Hto|]. split; [exact Hjoined|exact Hdone].
  - vm_compute in Hfrom. discriminate.
  - vm_compute in Hfrom. discriminate.
Defined.

(** C5, as the claim has it, fails: [stop] sent during Recording puts the
    program in Idle at once; the detection loop is still on the worker
    (not joined, [doneRecording] not set) and the capture collaborator has
    not been terminated. *)
Lemma stop_does_not_wait :
  let w := Bench.recordingWorld true true in
  let s := Live.setData "stop" (Live.app w) in
  Live.state (Live.app w) = Live.Recording
  /\ Live.state s = Live.Idle
  /\ Live.worker s = Some (Live.mkThread Live.KeepDetecting false)
  /\ Live.doneRecording (Live.recording s) = false
  /\ Live.workDone s = false
  /\ Live.audioLogger (Live.recording s) = Live.audioLogger (Live.recording (Live.app w)).
Proof. vm_compute. repeat split. Qed.

Lemma recording_cap_then_decoding_witness :
  let mid := [Live.AudioFrames [[0; 0]]; Live.WorkerRuns 122] in
  let w1 := Live.workerRuns 121 (Bench.recordingWorld true true) in
  Live.doneRecording (Live.recording (Live.app w1)) = true
  /\ Live.state (Live.app (Live.mainLoop mid w1).2) = Live.Decoding
  /\ Live.worker (Live.app (Live.mainLoop [] (Live.mainLoop mid w1).2).2)
     = Some (Live.mkThread Live.Decode false).
Proof.
  destruct (recording_cap_then_decoding (Bench.recordingWorld true true) 121
              [Live.AudioFrames [[0; 0]]; Live.WorkerRuns 122])
    as (Hdone & _ & Hgood).
  - reflexivity.
  - reflexivity.
  - reflexivity.
  - reflexivity.
  - cbv zeta in Hgood.
    destruct Hgood as (_ & Hstate & _ & _ & _ & Hnext); [reflexivity|].
    destruct (Hnext [] eq_refl) as (_ & Hworker & _).
    split; [exact Hdone|]. split; [exact Hstate|exact Hworker].
Defined.

(** C6, as the claim has it, fails: when the output file does not open,
    the call of [mainLoop] that follows the two-minute cap returns [false]
    in Recording; nothing is decoded. *)
Lemma cap_without_decoding :
  let w1 := Live.workerRuns 121 (Bench.recordingWorld true false) in
  Live.doneRecording (Live.recording (Live.app w1)) = true
  /\ (Live.mainLoop [] w1).1 = false
  /\ Live.state (Live.app (Live.mainLoop [] w1).2) = Live.Recording
  /\ Live.stdout (Live.mainLoop [] w1).2 = [].
Proof. vm_compute. repeat split. Qed.

Lemma live_exit_codes_witness :
  Live.main (L := Bench.lib) (H := Bench.host true false)
    ["keytap3-app"; "out.kbd"; "data"] Bench.liveDisk Bench.cappedSession = Some (inl (-1))
  /\ Live.main (L := Bench.lib) (H := Bench.host true false)
       Bench.liveArgv Bench.liveDisk Bench.cappedSession = Some (inl 0)
  /\ exists (s : @Live.State Bench.lib (Bench.host true false)) w,
       Live.nativeLoop Bench.cappedSession 500 (Live.mkWorld s Bench.liveDisk [] None)
       = Some (inl 0, w)
       /\ Live.state (Live.app w) = Live.Recording
       /\ Live.pathOutput (Live.recording (Live.app w)) = "out.kbd".
Proof.
  assert (Hrun : Live.main (L := Bench.lib) (H := Bench.host true false)
                   Bench.liveArgv Bench.liveDisk Bench.cappedSession = Some (inl 0))
    by (vm_compute; reflexivity).
  split.
  - apply (live_exit_codes (L := Bench.lib) (H := Bench.host true false)).
    cbn. lia.
  - split; [exact Hrun|].
    destruct (live_exit_codes (L := Bench.lib) (H := Bench.host true false)
                Bench.liveArgv Bench.liveDisk Bench.cappedSession) as [_ Hcodes].
    destruct (Hcodes 0 Hrun) as [(Hcode & _) | (_ & _ & s & w & _ & Hloop & Hs & Hp & _)].
    + discriminate Hcode.
    + exists s, w. split; [exact Hloop|]. split; [exact Hs|exact Hp].
Defined.

(** C7, as the claim has it, fails: when the n-gram table cannot be
    loaded the live program does not exit with -5; it stays in Loading (it
    is still running after 2000 turns of the loop), and no schedule makes
    it exit with -5 or with -4. *)
Lemma ngram_failure_is_no_exit :
  (loadFreqMapBinary (Lib := Bench.lib) (Live.ngramFile "data") ∅ tt).1 = false
  /\ Live.main (L := Bench.lib) (H := Bench.host true true)
       Bench.liveArgv ∅ (replicate 2000 ([Live.WorkerRuns 0], [Live.WorkerRuns 0])) = None
  /\ forall sched,
       Live.main (L := Bench.lib) (H := Bench.host true true) Bench.liveArgv ∅ sched
       <> Some (inl (-5))
       /\ Live.main (L := Bench.lib) (H := Bench.host true true) Bench.liveArgv ∅ sched
          <> Some (inl (-4)).
Proof.
  split; [vm_compute; reflexivity|]. split; [vm_compute; reflexivity|].
  intros sched. split; intros Hmain;
    apply main_exit in Hmain as [(Hcode & _) | (Hcode & _)]; discriminate Hcode.
Qed.

(** A whole session on the bench with a writable output file: the program
    loads, records until the cap, saves what the callback delivered and
    decodes; with no keypress in the recording the Decoding worker breaks
    on [similarityMap[0][1]]. *)
Example live_session_on_silence :
  Live.main (L := Bench.lib) (H := Bench.host true true)
    Bench.liveArgv Bench.liveDisk
    (replicate 500 ([], [Live.WorkerRuns 0])
     ++ [([], [Live.AudioFrames [[0; 0; 0; 0]]; Live.WorkerRuns 121]); ([], []);
         ([Live.WorkerRuns 0], [])])
  = Some (inr OutOfBounds).
Proof. vm_compute. reflexivity. Qed.

(** * Further properties *)

(** ** The batch program's ways out *)

Section BatchExits.
Context {L : Lib}.

Lemma loadWaveform_returns (argv : list string) (fs : FileSystem) (code : Z) :
  Batch.loadWaveform argv fs = Return code -> code = -1 \/ code = -4.
Proof.
  unfold Batch.loadWaveform.
  destruct (option_int _ "F" _) as [F|r|] eqn:HF; cbn [mbind Run_bind];
    [|by apply option_int_no_return in HF|discriminate].
  destruct (option_int _ "f" _) as [f|r|] eqn:Hf; cbn [mbind Run_bind];
    [|by apply option_int_no_return in Hf|discriminate].
  destruct (readFromFile _ fs) as [w|]; cbn [orReturn mbind Run_bind];
    [|intros [= <-]; by left].
  destruct (convert _ _) as [ok w16].
  destruct ok; cbn [check mbind Run_bind mret Run_ret]; [discriminate|].
  intros [= <-]. by right.
Qed.

Lemma detect_returns (w : TWaveformI16) (code : Z) :
  Batch.detect w = Return code -> code = -2.
Proof.
  unfold Batch.detect. destruct (findKeyPresses _ _ _ _ _ _) as [ok kp].
  destruct ok; cbn [check mbind Run_bind mret Run_ret]; [discriminate|].
  by intros [= <-].
Qed.

Lemma analyse_returns (argv2 : string) (fs : FileSystem)
    (keyPresses : TKeyPressCollection) (code : Z) :
  Batch.analyse argv2 fs keyPresses = Return code -> code = -3 \/ code = -5.
Proof.
  unfold Batch.analyse.
  destruct (calculateSimilartyMap _ _ _ keyPresses) as [[ok kp] m].
  destruct ok; cbn [check mbind Run_bind]; [|intros [= <-]; by left].
  destruct (similarityStats _ m) as [x|r|f] eqn:Hstats; cbn [mbind Run_bind].
  - destruct (loadFreqMapBinary _ _ _) as [ok fm].
    destruct ok; cbn [check mbind Run_bind mret Run_ret]; [discriminate|].
    intros [= <-]. by right.
  - exfalso. unfold similarityStats in Hstats.
    destruct (printCorner _ m); cbn in Hstats; [|discriminate].
    destruct (minmaxCC _ m); cbn in Hstats; discriminate.
  - discriminate.
Qed.

(** X1.  The batch program ends with one of the exit codes 0, -1, -2, -3,
    -4, -5 and no other; with fewer than two arguments it ends with -1
    whatever the disk holds. *)
Theorem batch_exit_codes (argv : list string) (fs : FileSystem) :
  ((length argv < 3)%nat -> Batch.main argv fs = inl (-1))
  /\ (forall code, Batch.main argv fs = inl code ->
        code = 0 \/ code = -1 \/ code = -2 \/ code = -3 \/ code = -4 \/ code = -5).
Proof.
  split.
  - intros Hargc. unfold Batch.main, Batch.run.
    assert (Hlt : (Z.of_nat (length argv) <? 3) = true) by (apply Z.ltb_lt; lia).
    rewrite Hlt. reflexivity.
  - intros code. unfold Batch.main, Batch.run.
    destruct (Z.of_nat (length argv) <? 3); cbn [negb check mbind Run_bind].
    { intros [= <-]. tauto. }
    destruct (Batch.loadWaveform argv fs) as [w|r|f] eqn:Hload; cbn [mbind Run_bind].
    + destruct (Batch.detect w) as [kp|r|f] eqn:Hdet; cbn [mbind Run_bind].
      * destruct (Batch.analyse _ fs kp) as [rep|r|f] eqn:Han.
        -- intros [= <-]. tauto.
        -- intros [= <-]. apply analyse_returns in Han. tauto.
        -- discriminate.
      * intros [= <-]. apply detect_returns in Hdet. tauto.
      * discriminate.
    + intros [= <-]. apply loadWaveform_returns in Hload. tauto.
    + discriminate.
Qed.

(** X2.  With no -F and no -f option, a recording file that is not on the
    disk makes the batch program end with -1, before anything is filtered
    or detected. *)
Theorem batch_missing_recording (argv : list string) (fs : FileSystem) :
  (3 <= length argv)%nat ->
  parseCmdArguments argv !! "F" = None ->
  parseCmdArguments argv !! "f" = None ->
  fs !! default "" (argv !! 1%nat) = None ->
  Batch.main argv fs = inl (-1).
Proof.
  intros Hargc HF Hf Hmissing. unfold Batch.main, Batch.run.
  assert (Hge : (Z.of_nat (length argv) <? 3) = false) by (apply Z.ltb_ge; lia).
  rewrite Hge. cbn [negb check mbind Run_bind].
  unfold Batch.loadWaveform, option_int, readFromFile.
  rewrite HF, Hf, Hmissing. reflexivity.
Qed.

(** X3.  An option value that [std::stoi] cannot read leaves [main] as an
    uncaught exception: for -F before the recording is even opened. *)
Theorem batch_bad_filter_option (argv : list string) (fs : FileSystem) (v : string) :
  (3 <= length argv)%nat ->
  parseCmdArguments argv !! "F" = Some v ->
  stoi v = None ->
  Batch.main argv fs = inr Uncaught.
Proof.
  intros Hargc HF Hbad. unfold Batch.main, Batch.run.
  assert (Hge : (Z.of_nat (length argv) <? 3) = false) by (apply Z.ltb_ge; lia).
  rewrite Hge. cbn [negb check mbind Run_bind].
  unfold Batch.loadWaveform, option_int.
  rewrite HF, Hbad. reflexivity.
Qed.

End BatchExits.

Lemma batch_missing_recording_witness :
  Batch.main (L := optionsLib) ["keytap3"; "nowhere.kbd"; "data"] Bench.silentDisk
  = inl (-1).
Proof.
  apply (batch_missing_recording (L := optionsLib)).
  - cbn. lia.
  - vm_compute; reflexivity.
  - vm_compute; reflexivity.
  - vm_compute; reflexivity.
Defined.

Lemma batch_bad_filter_option_witness :
  Batch.main (L := optionsLib) ["keytap3"; "silence.kbd"; "data"; "-Fhigh"] Bench.silentDisk
  = inr Uncaught.
Proof.
  apply (batch_bad_filter_option (L := optionsLib)) with (v := "high").
  - cbn. lia.
  - vm_compute; reflexivity.
  - vm_compute; reflexivity.
Defined.

(** ** The parameters and the pool of the decoding stage *)

(** X4.  Whatever the number of keypresses, also one that does not fit an
    [int], the beam width lies between 100 and 2100; and as long as the
    count fits, more keypresses never give a wider beam. *)
Theorem beamWidth_bounds :
  (forall size, 100 <= beamWidth size <= 2100)
  /\ (forall a b, 0 <= a <= b -> b <= int_max -> beamWidth b <= beamWidth a).
Proof.
  split.
  - intros size. unfold beamWidth.
    generalize (to_int (to_int size - 100)). intros z. lia.
  - intros a b Hab Hb.
    rewrite (beamWidth_spec a), (beamWidth_spec b) by lia. lia.
Qed.






Section DecodingStage.
Context {L : Lib}.
Variables (freqMap6 : TFreqMap) (similarityMap : TSimilarityMap).






End DecodingStage.



(** ** The statistics of the similarity map *)

Lemma elem_of_range (lo hi : Z) (x : nat) :
  0 <= lo -> (x ∈ range lo hi <-> lo <= Z.of_nat x < hi).
Proof.
  intros Hlo. unfold range. rewrite elem_of_seq. lia.
Qed.

Lemma cell_square (d : nat) (m : TSimilarityMap) (j i : nat) :
  square d m -> (j < d)%nat -> (i < d)%nat -> is_Some (cell m j i).
Proof.
  intros [Hlen Hrows] Hj Hi. unfold cell.
  destruct (m !! j) as [row|] eqn:Hrow; cbn.
  - apply lookup_lt_is_Some_2.
    rewrite (Forall_lookup_1 _ _ _ _ Hrows Hrow). exact Hi.
  - apply lookup_ge_None in Hrow. lia.
Qed.

Lemma min_cc_le (a b : Q) : (min_cc a b <= a)%Q /\ (min_cc a b <= b)%Q.
Proof.
  unfold min_cc. destruct (Qlt_le_dec b a) as [Hlt|Hle].
  - split; [by apply Qlt_le_weak|apply Qle_refl].
  - split; [apply Qle_refl|exact Hle].
Qed.

Lemma max_cc_ge (a b : Q) : (a <= max_cc a b)%Q /\ (b <= max_cc a b)%Q.
Proof.
  unfold max_cc. destruct (Qlt_le_dec a b) as [Hlt|Hle].
  - split; [by apply Qlt_le_weak|apply Qle_refl].
  - split; [apply Qle_refl|exact Hle].
Qed.

Section MinMax.
Variable m : TSimilarityMap.

(** One cell folded into the interval, as in the body of the two loops. *)
Let widen (j : nat) (acc : option (Q * Q)) (i : nat) : option (Q * Q) :=
  '(lo, hi) ← acc; c ← cell m j i; Some (min_cc lo (cc c), max_cc hi (cc c)).

Lemma covers_weaken (P P' : nat -> nat -> Prop) acc :
  (forall j i, P' j i -> P j i) -> covers m P acc -> covers m P' acc.
Proof.
  intros Hsub (lo & hi & -> & Hle & Hin).
  exists lo, hi. split; [reflexivity|]. split; [exact Hle|].
  intros j i Hji. apply Hin, Hsub, Hji.
Qed.

Lemma widen_covers (P : nat -> nat -> Prop) (j i : nat) acc :
  is_Some (cell m j i) -> covers m P acc ->
  covers m (fun j' i' => P j' i' \/ (j' = j /\ i' = i)) (widen j acc i).
Proof.
  intros [c Hc] (lo & hi & -> & Hle & Hin).
  unfold widen. cbn. rewrite Hc. cbn.
  destruct (min_cc_le lo (cc c)) as [Hmin1 Hmin2].
  destruct (max_cc_ge hi (cc c)) as [Hmax1 Hmax2].
  exists (min_cc lo (cc c)), (max_cc hi (cc c)).
  split; [reflexivity|]. split.
  - eapply Qle_trans; [exact Hmin1|]. eapply Qle_trans; [exact Hle|exact Hmax1].
  - intros j' i' [HP | [-> ->]].
    + destruct (Hin j' i' HP) as (c' & Hc' & Hlo & Hhi).
      exists c'. split; [exact Hc'|]. split.
      * eapply Qle_trans; [exact Hmin1|exact Hlo].
      * eapply Qle_trans; [exact Hhi|exact Hmax1].
    + exists c. split; [exact Hc|]. by split.
Qed.

Lemma row_covers (P : nat -> nat -> Prop) (j : nat) (l : list nat) acc :
  Forall (fun i => is_Some (cell m j i)) l -> covers m P acc ->
  covers m (fun j' i' => P j' i' \/ (j' = j /\ i' ∈ l)) (foldl (widen j) acc l).
Proof.
  intros Hl. revert P acc. induction Hl as [|i l Hi _ IH]; intros P acc Hacc.
  - cbn. eapply covers_weaken; [|exact Hacc].
    intros j' i' [HP | [_ Hin]]; [exact HP|]. by apply elem_of_nil in Hin.
  - cbn [foldl]. eapply covers_weaken; [|apply IH, widen_covers; [exact Hi|exact Hacc]].
    cbn. intros j' i' [HP | [-> Hin]]; [by left; left|].
    apply elem_of_cons in Hin as [-> | Hin]; [left; right; by split|right; by split].
Qed.

Lemma rows_covers (P : nat -> nat -> Prop) (g : nat -> list nat) (js : list nat) acc :
  Forall (fun j => Forall (fun i => is_Some (cell m j i)) (g j)) js ->
  covers m P acc ->
  covers m (fun j' i' => P j' i' \/ (j' ∈ js /\ i' ∈ g j'))
    (foldl (fun acc j => foldl (widen j) acc (g j)) acc js).
Proof.
  intros Hjs. revert P acc. induction Hjs as [|j js Hj _ IH]; intros P acc Hacc.
  - cbn. eapply covers_weaken; [|exact Hacc].
    intros j' i' [HP | [Hin _]]; [exact HP|]. by apply elem_of_nil in Hin.
  - cbn [foldl]. eapply covers_weaken; [|apply IH, row_covers; [exact Hj|exact Hacc]].
    cbn. intros j' i' [HP | [Hin Hi]]; [by left; left|].
    apply elem_of_cons in Hin as [-> | Hin]; [left; right; by split|right; by split].
Qed.

Lemma minmaxCC_covers (d : nat) (n : Z) :
  square d m -> (2 <= d)%nat -> n <= Z.of_nat d ->
  covers m (fun j i => (j < i)%nat /\ Z.of_nat i < n) (minmaxCC n m).
Proof.
  intros Hsq Hd Hn.
  destruct (cell_square d m 0 1 Hsq) as [first Hfirst]; [lia..|].
  unfold minmaxCC. rewrite Hfirst. cbn [mbind option_bind].
  eapply covers_weaken;
    [|apply (rows_covers (fun _ _ => False)
               (fun j => range (Z.of_nat j + 1) n) (range 0 (n - 1)))].
  - cbn. intros j i [Hji Hin]. right. split.
    + apply elem_of_range; lia.
    + apply elem_of_range; lia.
  - apply Forall_forall. intros j Hj. apply elem_of_range in Hj; [|lia].
    apply Forall_forall. intros i Hi. apply elem_of_range in Hi; [|lia].
    apply (cell_square d); [exact Hsq|lia..].
  - exists (cc first), (cc first). split; [reflexivity|].
    split; [apply Qle_refl|]. intros j i [].
Qed.

Lemma printCorner_square (d : nat) (n : Z) :
  square d m -> n <= Z.of_nat d -> is_Some (printCorner n m).
Proof.
  intros Hsq Hn. unfold printCorner.
  apply mapM_is_Some, Forall_forall. intros j Hj. apply elem_of_range in Hj; [|lia].
  apply mapM_is_Some, Forall_forall. intros i Hi. apply elem_of_range in Hi; [|lia].
  cbn. destruct (cell_square d m j i Hsq) as [c Hc]; [lia..|].
  rewrite Hc. by eexists.
Qed.

End MinMax.

(** X7.  On a map of [d] rows and [d] columns with [d] at least 2, for a
    count [n] of at most [d], the statistics block reads no cell outside
    the map, and the two numbers it prints are bounds: [minCC <= maxCC],
    and every cell above the diagonal, among the first [n] rows and
    columns, lies between them. *)
Theorem similarityStats_bounds {R : Type} (d : nat) (n : Z) (m : TSimilarityMap) :
  square d m -> (2 <= d)%nat -> n <= Z.of_nat d ->
  exists corner minCC maxCC,
    similarityStats (R := R) n m = Cont (corner, (minCC, maxCC))
    /\ (minCC <= maxCC)%Q
    /\ forall j i, (j < i)%nat -> Z.of_nat i < n ->
         exists c, cell m j i = Some c /\ (minCC <= cc c <= maxCC)%Q.
Proof.
  intros Hsq Hd Hn.
  destruct (printCorner_square m d n Hsq Hn) as [corner Hcorner].
  destruct (minmaxCC_covers m d n Hsq Hd Hn) as (lo & hi & Hmm & Hle & Hin).
  exists corner, lo, hi. split; [|split; [exact Hle|]].
  - unfold similarityStats. rewrite Hcorner, Hmm. reflexivity.
  - intros j i Hji Hi. apply Hin. by split.
Qed.

Lemma similarityStats_bounds_witness :
  exists corner minCC maxCC,
    similarityStats (R := Z) 3 (Bench.similarity (replicate 3 (mkKeyPress 0 (-1))))
    = Cont (corner, (minCC, maxCC))
    /\ (minCC <= maxCC)%Q
    /\ forall j i, (j < i)%nat -> Z.of_nat i < 3 ->
         exists c, cell (Bench.similarity (replicate 3 (mkKeyPress 0 (-1)))) j i = Some c
                   /\ (minCC <= cc c <= maxCC)%Q.
Proof.
  apply (similarityStats_bounds 3).
  - split; [reflexivity|]. repeat constructor.
  - lia.
  - lia.
Defined.

(** ** The recording state *)

Section RecordingState.
Context {L : Lib} {H : Host}.
Import Live.

(** X8.  Whatever the worker and the capture thread do, and in whatever
    order, the float waveform after it is the waveform before it followed
    by the delivered frames in the order of delivery: the worker never
    writes it, and the callback only appends. *)
Theorem waveform_is_what_was_delivered (evs : list EnvEvent) (w : World) :
  waveformF (recording (app (envSteps evs w)))
  = waveformF (recording (app w)) ++ delivered evs.
Proof.
  unfold envSteps. revert w. induction evs as [|e evs IH]; intros w.
  - cbn. by rewrite app_nil_r.
  - cbn [foldl delivered flat_map]. rewrite IH. fold (delivered evs).
    destruct e as [t|frames]; cbn [envStep].
    + destruct (workerRuns_recording t w) as [-> | ->].
      * reflexivity.
      * by rewrite updateWorker_waveformF.
    + cbn. destruct (cbAudio_keeps frames (recording (app w))) as (-> & _).
      by rewrite app_assoc.
Qed.

(** X9.  Whatever the worker and the capture thread do, the number of
    keys reported never goes down, a recording that is done stays done,
    and the state of the state machine does not change: only the control
    loop and the UI commands move it. *)
Theorem env_events_are_monotone (evs : list EnvEvent) (w : World) :
  nKeysHave (recording (app w)) <= nKeysHave (recording (app (envSteps evs w)))
  /\ (doneRecording (recording (app w)) = true ->
      doneRecording (recording (app (envSteps evs w))) = true)
  /\ state (app (envSteps evs w)) = state (app w).
Proof.
  unfold envSteps. revert w. induction evs as [|e evs IH]; intros w.
  - cbn. repeat split; [lia|done].
  - cbn [foldl]. destruct (IH (envStep e w)) as (Hn & Hd & Hs).
    assert (He : nKeysHave (recording (app w)) <= nKeysHave (recording (app (envStep e w)))
                 /\ (doneRecording (recording (app w)) = true ->
                     doneRecording (recording (app (envStep e w))) = true)
                 /\ state (app (envStep e w)) = state (app w)).
    { destruct e as [t|frames]; cbn [envStep].
      - split; [|split; [|apply workerRuns_state]].
        + destruct (workerRuns_recording t w) as [-> | ->]; [lia|].
          apply updateWorker_keeps.
        + destruct (workerRuns_recording t w) as [-> | ->]; [done|].
          apply updateWorker_keeps.
      - cbn. destruct (cbAudio_keeps frames (recording (app w))) as (_ & -> & Hdone).
        repeat split; [lia|exact Hdone]. }
    destruct He as (Hn' & Hd' & Hs').
    split; [lia|]. split; [auto|congruence].
Qed.

(** X10.  A turn of the detection loop ends a recording that is not yet
    done exactly when more than 120 seconds have elapsed: at 120 seconds
    sharp it does not. *)
Theorem updateWorker_ends_recording_iff (out : string) (tElapsed : Q) (r : StateRecording) :
  doneRecording r = false ->
  doneRecording (StateRecording_updateWorker out tElapsed r).2 = true
  <-> (120 < tElapsed)%Q.
Proof.
  intros Hnot. split.
  - unfold StateRecording_updateWorker.
    destruct (convert _ _) as [ok w16]. destruct (findKeyPresses _ _ _ _ _ _) as [ok' kp].
    destruct (Qle_bool tElapsed (2 * 60)) eqn:Hle; cbn [negb].
    + destruct (_ <? _); cbn; congruence.
    + intros _. apply Qnot_le_lt. intros Hc.
      change (tElapsed <= 2 * 60)%Q in Hc. apply Qle_bool_iff in Hc. congruence.
  - intros Hcap. apply updateWorker_cap. exact Hcap.
Qed.


Lemma init_leaves_started (r : StateRecording) :
  isStarted r && negb (doneRecording r) = false ->
  isStarted (StateRecording_init r).2 = true
  /\ doneRecording (StateRecording_init r).2 = false.
Proof.
  intros Hfree. unfold StateRecording_init. rewrite Hfree.
  destruct (install _ _) as [ok logger]. split; reflexivity.
Qed.

(** X12.  [init] called again on the state a call of [init] left is
    refused and changes nothing: a recording that was started cannot be
    started again before it is done, also when the install of the capture
    collaborator failed. *)
Theorem init_again_is_refused (r : StateRecording) :
  StateRecording_init (StateRecording_init r).2 = (false, (StateRecording_init r).2).
Proof.
  assert (Hbusy : isStarted (StateRecording_init r).2
                  && negb (doneRecording (StateRecording_init r).2) = true).
  { destruct (isStarted r && negb (doneRecording r)) eqn:Hfree.
    - unfold StateRecording_init. rewrite Hfree. exact Hfree.
    - destruct (init_leaves_started r Hfree) as [-> ->]. reflexivity. }
  generalize dependent (StateRecording_init r).2. intros r1 Hbusy.
  unfold StateRecording_init. rewrite Hbusy. reflexivity.
Qed.

End RecordingState.

Lemma updateWorker_ends_recording_iff_witness :
  Live.doneRecording
    (Live.StateRecording_updateWorker (L := Bench.lib) (H := Bench.host true true)
       "" 120 (Live.recording (Bench.idle true true))).2 = true
  <-> (120 < 120)%Q.
Proof. apply updateWorker_ends_recording_iff. vm_compute; reflexivity. Defined.

(** ** The UI commands *)

Section Commands.
Context {L : Lib} {H : Host}.
Import Live.

(** X13.  A command is dropped without any effect when its first word is
    neither [start] nor [stop], and so is [start] in any state but Idle. *)
Theorem setData_ignores (data : string) (s : State) :
  (extract_word data).1 <> "stop" ->
  ((extract_word data).1 = "start" -> state s <> Idle) ->
  setData data s = s.
Proof.
  intros Hstop Hstart. unfold setData.
  destruct (extract_word data) as [cmd rest]. cbn [fst] in *.
  destruct (String.eqb cmd "start") eqn:Hcmd.
  - apply String.eqb_eq in Hcmd. specialize (Hstart Hcmd).
    destruct (state s); try reflexivity. done.
  - destruct (String.eqb cmd "stop") eqn:Hcmd'; [|reflexivity].
    apply String.eqb_eq in Hcmd'. done.
Qed.

(** X14.  No command touches the worker, the [workDone] flag, the
    decoding state or the pending message, and the only states a command
    leads to are Recording (from Idle) and Idle. *)
Theorem setData_frame (data : string) (s : State) :
  worker (setData data s) = worker s
  /\ workDone (setData data s) = workDone s
  /\ decoding (setData data s) = decoding s
  /\ dataOutput (setData data s) = dataOutput s
  /\ (state (setData data s) = state s
      \/ (state s = Idle /\ state (setData data s) = Recording)
      \/ state (setData data s) = Idle).
Proof.
  unfold setData. destruct (extract_word data) as [cmd rest].
  destruct (String.eqb cmd "start").
  - destruct (state s) eqn:Hs; try (repeat split; by left).
    destruct (extract_int rest); cbn; repeat split; right; left; by split.
  - destruct (String.eqb cmd "stop"); cbn; repeat split; auto.
Qed.

(** X15.  [start] in Idle, when no recording is in progress (none was
    started, or the last one is done), begins a fresh one: the state is
    Recording, the waveforms and the keypresses are empty, no key is
    counted, and the target is the number given, or the previous target
    when none can be read. *)
Theorem start_begins_fresh_recording (data : string) (s : State) :
  (extract_word data).1 = "start" ->
  state s = Idle ->
  isStarted (recording s) && negb (doneRecording (recording s)) = false ->
  let r := recording (setData data s) in
  state (setData data s) = Recording
  /\ waveformF r = [] /\ waveformI16 r = [] /\ keyPresses r = []
  /\ nKeysHave r = 0 /\ isStarted r = true /\ doneRecording r = false
  /\ doRecord r = true
  /\ nKeysToCapture r
     = default (nKeysToCapture (recording s)) (extract_int (extract_word data).2)
  /\ pathOutput r = pathOutput (recording s).
Proof.
  intros Hcmd Hidle Hfree. unfold setData.
  destruct (extract_word data) as [cmd rest]. cbn [fst snd] in *. subst cmd.
  cbn [String.eqb Ascii.eqb Bool.eqb]. rewrite Hidle.
  destruct (extract_int rest) as [n|]; cbn [default];
    unfold StateRecording_init; cbn; rewrite Hfree;
    destruct (install _ _) as [ok logger]; cbn; repeat split.
Qed.

(** X16.  [stop] during a recording followed by [start] does not begin a
    new recording: [init] is refused, the state is Recording again and
    everything recorded so far is kept; only the target changes when
    [start] carries a number. *)
Theorem stop_then_start_resumes (stopData startData : string) (s : State) :
  (extract_word stopData).1 = "stop" ->
  (extract_word startData).1 = "start" ->
  isStarted (recording s) = true ->
  doneRecording (recording s) = false ->
  let s' := setData startData (setData stopData s) in
  state s' = Recording
  /\ recording s'
     = match extract_int (extract_word startData).2 with
       | Some n => set_nKeysToCapture n (recording s)
       | None => recording s
       end
  /\ worker s' = worker s.
Proof.
  intros Hstop Hstart Hstarted Hnot. unfold setData.
  destruct (extract_word stopData) as [cmd rest]. cbn [fst] in Hstop. subst cmd.
  destruct (extract_word startData) as [cmd' rest']. cbn [fst snd] in *. subst cmd'.
  cbn [String.eqb Ascii.eqb Bool.eqb]. cbn [state set_state].
  destruct (extract_int rest') as [n|];
    unfold StateRecording_init; cbn; rewrite Hstarted, Hnot; cbn;
    repeat split; by destruct (recording s).
Qed.

End Commands.

Lemma setData_ignores_witness :
  Live.setData "pause" (Bench.idle true true) = Bench.idle true true.
Proof.
  apply setData_ignores.
  - vm_compute. discriminate.
  - vm_compute. discriminate.
Defined.

Lemma start_begins_fresh_recording_witness :
  let s := Live.setData "start 7" (Bench.idle true true) in
  Live.state s = Live.Recording /\ Live.nKeysToCapture (Live.recording s) = 7.
Proof.
  destruct (start_begins_fresh_recording "start 7" (Bench.idle true true))
    as (Hs & _ & _ & _ & _ & _ & _ & _ & Hn & _).
  - vm_compute; reflexivity.
  - vm_compute; reflexivity.
  - vm_compute; reflexivity.
  - cbv zeta. split; [exact Hs|]. rewrite Hn. vm_compute; reflexivity.
Defined.

Lemma stop_then_start_resumes_witness :
  let s := Live.app (Bench.recordingWorld true true) in
  Live.state (Live.setData "start" (Live.setData "stop" s)) = Live.Recording
  /\ Live.recording (Live.setData "start" (Live.setData "stop" s)) = Live.recording s.
Proof.
  destruct (stop_then_start_resumes "stop" "start" (Live.app (Bench.recordingWorld true true)))
    as (Hs & Hr & _).
  - vm_compute; reflexivity.
  - vm_compute; reflexivity.
  - vm_compute; reflexivity.
  - vm_compute; reflexivity.
  - cbv zeta. split; [exact Hs|]. rewrite Hr. vm_compute; reflexivity.
Defined.

(** ** The state machine *)

Section StateMachine.
Context {L : Lib} {H : Host}.
Import Live.

Variables (fs : FileSystem) (dir : string).


Hypothesis load_fails : forall fm, (loadFreqMapBinary (ngramFile dir) fs fm).1 = false.








End StateMachine.


(** ** Loading, saving, decoding *)

Lemma length_raw_bytes (w : TWaveformF) : length (raw_bytes w) = (4 * length w)%nat.
Proof.
  unfold raw_bytes. induction w as [|x w IH]; [reflexivity|].
  cbn [flat_map bytes_of_float app length]. rewrite IH. lia.
Qed.

Lemma to_int_fits (z : Z) : int_min <= z <= int_max -> to_int z = z.
Proof.
  unfold to_int, int_min, int_max. intros Hz.
  rewrite Z.mod_small by lia. lia.
Qed.

Lemma atoi_cases (s : string) :
  int_min <= atoi s <= int_max
  /\ (read_number s = None -> atoi s = 0)
  /\ forall z, read_number s = Some z ->
       (int_min <= z <= int_max -> atoi s = z)
       /\ (long_max <= z -> atoi s = -1)
       /\ (z <= long_min -> atoi s = 0).
Proof.
  unfold atoi, strtol. split; [apply to_int_range|]. split.
  - by intros ->.
  - intros z ->. split; [|split].
    + intros Hz. unfold int_min, int_max, long_min, long_max in *.
      rewrite Z.min_r, Z.max_r by lia. apply to_int_fits. unfold int_min, int_max. lia.
    + intros Hz. rewrite Z.min_l by exact Hz. reflexivity.
    + intros Hz. rewrite Z.max_l by (unfold long_min, long_max in *; lia). reflexivity.
Qed.

Section Transitions.
Context {L : Lib} {H : Host}.
Import Live.

Lemma during_app (evs evs' : list EnvEvent) (w : World) :
  during (evs ++ evs') w = during evs' (during evs w).
Proof. unfold during. apply foldl_app. Qed.

Section LoadingCalls.
Variables (d : FileSystem) (dec : StateDecoding).
Hypothesis load_ok : (loadFreqMapBinary (ngramFile (pathData dec)) d (freqMap6 dec)).1 = true.

(** The Loading worker has been started and has not run yet... *)
Let loadStarted (v : World) : Prop :=
  state (app v) = Loading /\ worker (app v) = Some (mkThread LoadNgrams false)
  /\ workDone (app v) = false /\ dataOutput (app v) = "loading"
  /\ disk v = d /\ decoding (app v) = dec.

(** ... or has come to its end. *)
Let loadFinished (v : World) : Prop :=
  state (app v) = Loading /\ worker (app v) = Some (mkThread LoadNgrams true)
  /\ workDone (app v) = true /\ dataOutput (app v) = "loading"
  /\ freqMap6 (decoding (app v))
     = (loadFreqMapBinary (ngramFile (pathData dec)) d (freqMap6 dec)).2.

Lemma loadFinished_envStep (e : EnvEvent) (v : World) :
  loadFinished v -> loadFinished (envStep e v).
Proof.
  intros (Hs & Hw & Hd & Ho & Hf). destruct e as [t|frames]; cbn [envStep].
  - unfold workerRuns. rewrite Hw. cbn. repeat split; assumption.
  - repeat split; assumption.
Qed.

Lemma loadFinished_during (evs : list EnvEvent) (v : World) :
  loadFinished v -> loadFinished (during evs v).
Proof.
  unfold during. revert v. induction evs as [|e evs IH]; intros v Hv; [exact Hv|].
  cbn [foldl]. apply IH, loadFinished_envStep, Hv.
Qed.

Lemma loadStarted_during (evs : list EnvEvent) (v : World) :
  loadStarted v ->
  if workerRan evs then loadFinished (during evs v) else loadStarted (during evs v).
Proof.
  unfold during. revert v. induction evs as [|e evs IH]; intros v Hv; [exact Hv|].
  cbn [foldl workerRan existsb]. destruct e as [t|frames]; cbn [orb envStep].
  - apply (loadFinished_during evs).
    destruct Hv as (Hs & Hw & Hd & Ho & Hdisk & Hdec).
    unfold workerRuns. rewrite Hw. cbn [exited job].
    destruct (loadingWorker_keeps v) as (Hs' & _ & Hwk & _).
    unfold set_exited. rewrite Hwk, Hw. cbn [app set_app state worker set_worker job
      workDone dataOutput decoding]. 
    unfold loadingWorker. rewrite Hdisk, Hdec.
    destruct (loadFreqMapBinary _ _ _) as [ok fm]. cbn in load_ok. subst ok.
    cbn. repeat split; assumption.
  - apply IH. destruct Hv as (Hs & Hw & Hd & Ho & Hdisk & Hdec). repeat split; assumption.
Qed.

Lemma finishLoading_finished (v : World) :
  loadFinished v ->
  let v' := (finishLoading v).2 in
  state (app v') = Idle /\ dataOutput (app v') = "loaded" /\ worker (app v') = None
  /\ freqMap6 (decoding (app v'))
     = (loadFreqMapBinary (ngramFile (pathData dec)) d (freqMap6 dec)).2.
Proof.
  intros (Hs & Hw & Hd & Ho & Hf). unfold finishLoading. rewrite Hd.
  unfold join. rewrite Hw. cbn. repeat split. exact Hf.
Qed.

Lemma finishLoading_started (v : World) :
  loadStarted v -> finishLoading v = (true, v).
Proof.
  intros (Hs & Hw & Hd & _). unfold finishLoading. by rewrite Hd.
Qed.

Lemma mainLoop_loading (mid : list EnvEvent) (v : World) :
  loadStarted v ->
  let v' := (mainLoop mid v).2 in
  if workerRan mid
  then state (app v') = Idle /\ dataOutput (app v') = "loaded" /\ worker (app v') = None
       /\ freqMap6 (decoding (app v'))
          = (loadFreqMapBinary (ngramFile (pathData dec)) d (freqMap6 dec)).2
  else v' = during mid v /\ loadStarted v'.
Proof.
  intros Hv. pose proof Hv as (Hs & Hw & _).
  cbv zeta. unfold mainLoop. rewrite Hs. unfold startLoading, joinable. rewrite Hw.
  cbn [negb]. pose proof (loadStarted_during mid v Hv) as Hmid.
  destruct (workerRan mid).
  - by apply finishLoading_finished.
  - rewrite finishLoading_started by exact Hmid. by split.
Qed.

End LoadingCalls.

(** X18.  When the n-gram table loads, the program goes from Loading to
    Idle in the first call of the control loop in which, or before
    which, the worker has run: the UI is told [loaded], the table is in
    the decoding state and the worker has been joined.  That can be the
    very call that started the worker; until then the program is in
    Loading and the UI has been told [loading]. *)
Theorem loading_then_idle (w : World) (mid gap mid' : list EnvEvent) :
  state (app w) = Loading ->
  worker (app w) = None ->
  workDone (app w) = false ->
  (loadFreqMapBinary (ngramFile (pathData (decoding (app w)))) (disk w)
     (freqMap6 (decoding (app w)))).1 = true ->
  let w1 := (mainLoop mid w).2 in
  let w2 := (mainLoop mid' (during gap w1)).2 in
  let loaded (v : World) :=
    state (app v) = Idle /\ dataOutput (app v) = "loaded" /\ worker (app v) = None
    /\ freqMap6 (decoding (app v))
       = (loadFreqMapBinary (ngramFile (pathData (decoding (app w)))) (disk w)
            (freqMap6 (decoding (app w)))).2 in
  (workerRan mid = true -> loaded w1)
  /\ (workerRan mid = false ->
      state (app w1) = Loading /\ dataOutput (app w1) = "loading"
      /\ worker (app w1) = Some (mkThread LoadNgrams false)
      /\ (workerRan (gap ++ mid') = true -> loaded w2)
      /\ (workerRan (gap ++ mid') = false ->
          state (app w2) = Loading /\ dataOutput (app w2) = "loading")).
Proof.
  intros Hs Hw Hd Hload. cbv zeta.
  set (v := startLoading w).
  assert (Hv : state (app v) = Loading /\ worker (app v) = Some (mkThread LoadNgrams false)
               /\ workDone (app v) = false /\ dataOutput (app v) = "loading"
               /\ disk v = disk w /\ decoding (app v) = decoding (app w)).
  { subst v. unfold startLoading, joinable. rewrite Hw. cbn. repeat split; assumption. }
  assert (Hloop : forall mid, mainLoop mid w = finishLoading (during mid v)).
  { intros m. unfold mainLoop. by rewrite Hs. }
  pose proof (loadStarted_during (disk w) (decoding (app w)) Hload mid v Hv) as Hmid.
  rewrite Hloop. split.
  - intros Hran. rewrite Hran in Hmid.
    by apply (finishLoading_finished (disk w) (decoding (app w))).
  - intros Hran. rewrite Hran in Hmid.
    rewrite (finishLoading_started (disk w) (decoding (app w))) by exact Hmid.
    cbn [snd]. set (w1 := during mid v) in *. clearbody w1.
    pose proof Hmid as (Hs1 & Hw1 & _ & Ho1 & _).
    split; [exact Hs1|]. split; [exact Ho1|]. split; [exact Hw1|].
    pose proof (loadStarted_during (disk w) (decoding (app w)) Hload gap w1 Hmid) as Hgap.
    unfold workerRan in *. rewrite existsb_app.
    destruct (existsb _ gap); cbn [orb].
    + split; [intros _|discriminate].
      assert (Hfin := loadFinished_during (disk w) (decoding (app w)) mid' _ Hgap).
      destruct Hgap as (Hs2 & Hw2 & _).
      unfold mainLoop. rewrite Hs2. unfold startLoading, joinable. rewrite Hw2. cbn [negb].
      by apply (finishLoading_finished (disk w) (decoding (app w))).
    + pose proof (mainLoop_loading (disk w) (decoding (app w)) Hload mid' _ Hgap) as Hcall.
      cbv zeta in Hcall. unfold workerRan in Hcall.
      destruct (existsb _ mid').
      * split; [intros _; exact Hcall|discriminate].
      * split; [discriminate|intros _].
        destruct Hcall as (_ & Hs2 & _ & _ & Ho2 & _). by split.
Qed.

Lemma during_waveformF (evs : list EnvEvent) (w : World) :
  waveformF (recording (app (during evs w)))
  = waveformF (recording (app w)) ++ delivered evs.
Proof.
  unfold during. revert w. induction evs as [|e evs IH]; intros w.
  - cbn. by rewrite app_nil_r.
  - cbn [foldl delivered flat_map]. rewrite IH. fold (delivered evs).
    destruct e as [t|frames]; cbn [envStep].
    + destruct (workerRuns_recording t w) as [-> | ->].
      * reflexivity.
      * by rewrite updateWorker_waveformF.
    + cbn. destruct (cbAudio_keeps frames (recording (app w))) as (-> & _).
      by rewrite app_assoc.
Qed.

Lemma finishRecording_recording (w : World) :
  doneRecording (recording (app w)) = true ->
  foutGood (pathOutput (recording (app w))) (disk w) = true ->
  totalSize_bytes (recording (app (finishRecording w).2))
  = 4 * Z.of_nat (length (waveformF (recording (app w))))
  /\ waveformF (recording (app (finishRecording w).2)) = waveformF (recording (app w)).
Proof.
  intros Hdone Hgood. unfold finishRecording. rewrite Hdone. cbv zeta.
  match goal with |- context [join ?w0] =>
    destruct (join_keeps w0) as (_ & Hr & Hd & _); set (wj := join w0) in * end.
  clearbody wj. cbn [app set_app recording set_recording disk] in Hr, Hd.
  rewrite Hr, Hd. cbn [pathOutput set_audioLogger]. rewrite Hgood. cbn. by split.
Qed.

(** X19.  At the end of a recording whose output file opens, the file
    holds the float waveform, with the frames the capture thread delivered
    while the call ran: read back the way the batch program reads its
    input it gives the recorded samples, which are the waveform the state
    holds; its size in bytes is the [totalSize_bytes] the state records,
    and no other file is touched. *)
Theorem saved_recording_reads_back (w : World) (mid : list EnvEvent) :
  state (app w) = Recording ->
  doneRecording (recording (app w)) = true ->
  foutGood (pathOutput (recording (app w))) (disk w) = true ->
  Forall is_float32 (waveformF (recording (app w)) ++ delivered mid) ->
  let w' := (mainLoop mid w).2 in
  let path := pathOutput (recording (app w)) in
  let saved := waveformF (recording (app w)) ++ delivered mid in
  readFromFile path (disk w') = Some saved
  /\ waveformF (recording (app w')) = saved
  /\ (length <$> disk w' !! path)
     = Some (Z.to_nat (totalSize_bytes (recording (app w'))))
  /\ forall other, other <> path -> disk w' !! other = disk w !! other.
Proof.
  intros Hst Hdone Hgood Hfloat. cbv zeta. unfold mainLoop. rewrite Hst.
  destruct (startRecording_keeps w) as (_ & Hd0 & Hr0 & Hj0).
  destruct (update_keeps (recording (app w))) as (Hu1 & Hu2 & Hu3 & _).
  destruct (during_keeps mid (startRecording w)) as (_ & Hdt & Hpt).
  assert (Hdone0 : doneRecording (recording (app (startRecording w))) = true).
  { by rewrite Hr0, Hu1. }
  destruct (during_done mid (startRecording w) Hdone0) as (Hdonet & _).
  pose proof (during_joinable mid (startRecording w) Hj0) as Hjt.
  pose proof (during_waveformF mid (startRecording w)) as Hwt.
  set (wt := during mid (startRecording w)) in *. clearbody wt.
  rewrite Hd0 in Hdt. rewrite Hr0, Hu2 in Hpt. rewrite Hr0, Hu3 in Hwt.
  assert (Hgood' : foutGood (pathOutput (recording (app wt))) (disk wt) = true).
  { by rewrite Hpt, Hdt. }
  destruct (finishRecording_saves wt Hdonet Hjt Hgood') as (_ & _ & _ & _ & _ & _ & ->).
  destruct (finishRecording_recording wt Hdonet Hgood') as (-> & ->).
  rewrite Hpt, Hdt, Hwt.
  unfold readFromFile, writeRecording. rewrite lookup_insert_eq. cbn.
  split; [|split; [reflexivity|split]].
  - f_equal. by apply raw_samples_raw_bytes.
  - f_equal. rewrite length_raw_bytes. lia.
  - intros other Hother. by rewrite lookup_insert_ne.
Qed.

Lemma decodingBody_detection_fails (s : State) :
  (findKeyPresses (waveformInput (decoding s)) [] 8 512 (2 * 1024) true).1 = false ->
  decodingBody s = Return tt.
Proof.
  intros Hfail. unfold decodingBody.
  destruct (findKeyPresses _ _ _ _ _ _) as [ok kp]. cbn in Hfail. subst ok. reflexivity.
Qed.

(** Once the worker has come to its end, all the other threads change is
    the recording state. *)
Lemma during_exited (evs : list EnvEvent) (w : World) (j : Job) :
  worker (app w) = Some (mkThread j true) ->
  during evs w = set_app (set_recording (recording (app (during evs w))) (app w)) w.
Proof.
  unfold during. revert w. induction evs as [|e evs IH]; intros w Hw.
  - cbn [foldl]. by destruct w as [[]].
  - cbn [foldl].
    assert (He : envStep e w
                 = set_app (set_recording (recording (app (envStep e w))) (app w)) w).
    { destruct e as [t|frames]; cbn [envStep]; [|reflexivity].
      unfold workerRuns. rewrite Hw. cbn [exited]. by destruct w as [[]]. }
    assert (Hw1 : worker (app (envStep e w)) = Some (mkThread j true)).
    { rewrite He. exact Hw. }
    rewrite (IH _ Hw1). set (r := recording _). clearbody r. rewrite He. reflexivity.
Qed.

(** X20.  When the detection fails in the Decoding worker, the worker
    ends without a word: nothing is written to [dataOutput], [workDone]
    stays unset, and from then on the control loop changes nothing and
    the other threads nothing but the recording state; the program stays
    in Decoding. *)
Theorem decoding_failure_is_silent (w : World) (tElapsed : Q) :
  state (app w) = Decoding ->
  worker (app w) = Some (mkThread Decode false) ->
  workDone (app w) = false ->
  (findKeyPresses (waveformInput (decoding (app w))) [] 8 512 (2 * 1024) true).1 = false ->
  let w1 := workerRuns tElapsed w in
  state (app w1) = Decoding
  /\ dataOutput (app w1) = dataOutput (app w)
  /\ workDone (app w1) = false
  /\ mainLoop [] w1 = (true, w1)
  /\ (forall t, workerRuns t w1 = w1)
  /\ forall mid,
       mainLoop mid w1 = (true, during mid w1)
       /\ during mid w1
          = set_app (set_recording (recording (app (during mid w1))) (app w1)) w1.
Proof.
  intros Hs Hw Hd Hfail. cbv zeta.
  assert (Hw1 : workerRuns tElapsed w
                = set_app (set_worker (Some (mkThread Decode true)) (app w)) w).
  { unfold workerRuns. rewrite Hw. cbn [exited job]. unfold decodingWorker.
    rewrite decodingBody_detection_fails by exact Hfail.
    unfold set_exited. rewrite Hw. reflexivity. }
  rewrite Hw1. set (w1 := set_app _ w).
  assert (Hwk : worker (app w1) = Some (mkThread Decode true)) by reflexivity.
  assert (Hs1 : state (app w1) = Decoding) by exact Hs.
  assert (Hd1 : workDone (app w1) = false) by exact Hd.
  assert (Ho1 : dataOutput (app w1) = dataOutput (app w)) by reflexivity.
  clearbody w1.
  assert (Hloop : forall mid, mainLoop mid w1 = (true, during mid w1)
                              /\ during mid w1
                                 = set_app (set_recording (recording (app (during mid w1)))
                                              (app w1)) w1).
  { intros mid. pose proof (during_exited mid w1 Decode Hwk) as Hmid.
    split; [|exact Hmid].
    unfold mainLoop. rewrite Hs1. unfold startDecoding, joinable. rewrite Hwk. cbn [negb].
    unfold finishDecoding. rewrite Hmid. cbn [app set_app workDone set_recording].
    by rewrite Hd1. }
  split; [exact Hs1|]. split; [exact Ho1|]. split; [exact Hd1|].
  split; [exact (proj1 (Hloop []))|]. split; [|exact Hloop].
  intros t. unfold workerRuns. by rewrite Hwk.
Qed.

(** X21.  When the Decoding worker comes to its end, it leaves its report
    and the message [done]; the next call of the control loop, whatever
    the other threads do during it, joins it and returns to Idle, where
    [getData] hands [done] to the UI. *)
Theorem decoding_then_idle (w : World) (tElapsed : Q) (r : Report) (mid : list EnvEvent) :
  state (app w) = Decoding ->
  worker (app w) = Some (mkThread Decode false) ->
  decodingBody (app w) = Cont r ->
  let w2 := (mainLoop mid (workerRuns tElapsed w)).2 in
  state (app w2) = Idle
  /\ worker (app w2) = None
  /\ stdout w2 = stdout w ++ [r]
  /\ fault w2 = fault w
  /\ (getData (app w2)).1 = "done".
Proof.
  intros Hs Hw Hbody. cbv zeta.
  assert (Hw1 : workerRuns tElapsed w
                = set_stdout (stdout w ++ [r])
                    (set_app (set_worker (Some (mkThread Decode true))
                                (set_workDone true (set_dataOutput "done" (app w)))) w)).
  { unfold workerRuns. rewrite Hw. cbn [exited job]. unfold decodingWorker.
    rewrite Hbody. unfold set_exited. cbn [app set_app set_stdout worker set_workDone
      set_dataOutput]. rewrite Hw. reflexivity. }
  rewrite Hw1. set (w1 := set_stdout _ _).
  assert (Hwk : worker (app w1) = Some (mkThread Decode true)) by reflexivity.
  assert (Hs1 : state (app w1) = Decoding) by exact Hs.
  assert (Hd1 : workDone (app w1) = true) by reflexivity.
  assert (Ho1 : dataOutput (app w1) = "done") by reflexivity.
  assert (Hso : stdout w1 = stdout w ++ [r]) by reflexivity.
  assert (Hf1 : fault w1 = fault w) by reflexivity.
  clearbody w1.
  pose proof (during_exited mid w1 Decode Hwk) as Hmid.
  unfold mainLoop. rewrite Hs1. unfold startDecoding, joinable. rewrite Hwk. cbn [negb].
  unfold finishDecoding. rewrite Hmid. cbn [app set_app workDone set_recording].
  rewrite Hd1. unfold join. cbn [app set_app worker set_recording]. rewrite Hwk.
  cbn. rewrite Ho1. repeat split; assumption.
Qed.

(** X22.  The state [main] builds starts in Loading with no message and no
    worker; the target is [atoi] of the third argument: an [int], the
    number written there when it fits an [int], 0 when no number can be
    read, and -1 or 0 when the number is beyond the range of [long];
    without a -C option the capture collaborator will be asked for 0
    channels, not for the 1 channel the recording state defaults to. *)
Theorem main_initial_state (argv : list string) (s : State) :
  argState argv = Cont s ->
  let target := default "" (argv !! 3%nat) in
  state s = Loading /\ dataOutput s = "" /\ worker s = None /\ workDone s = false
  /\ nKeysToCapture (recording s) = atoi target
  /\ int_min <= nKeysToCapture (recording s) <= int_max
  /\ (read_number target = None -> nKeysToCapture (recording s) = 0)
  /\ (forall z, read_number target = Some z ->
        (int_min <= z <= int_max -> nKeysToCapture (recording s) = z)
        /\ (long_max <= z -> nKeysToCapture (recording s) = -1)
        /\ (z <= long_min -> nKeysToCapture (recording s) = 0))
  /\ pathOutput (recording s) = default "" (argv !! 1%nat)
  /\ pathData (decoding s) = default "" (argv !! 2%nat)
  /\ AudioLogger.sampleRate (installParameters (recording s)) = 24000
  /\ (parseCmdArguments argv !! "C" = None ->
      AudioLogger.nChannels (installParameters (recording s)) = 0
      /\ nChannels StateRecording_default = 1).
Proof.
  intros Hargs target.
  apply argState_initialState in Hargs as (c & n & F & f & -> & Hn & _).
  destruct (atoi_cases target) as (Hrange & Hnone & Hsome).
  split; [reflexivity|]. split; [reflexivity|]. split; [reflexivity|].
  split; [reflexivity|]. split; [reflexivity|]. split; [exact Hrange|].
  split; [exact Hnone|]. split; [exact Hsome|].
  split; [reflexivity|]. split; [reflexivity|]. split; [reflexivity|].
  intros HC. split; [|reflexivity]. unfold option_int in Hn.
  rewrite HC in Hn. by injection Hn as <-.
Qed.

End Transitions.

Lemma loading_then_idle_witness :
  let w1 := (Live.mainLoop [Live.WorkerRuns 0] Bench.freshWorld).2 in
  let w1' := (Live.mainLoop [] Bench.freshWorld).2 in
  let w2' := (Live.mainLoop [] (Live.during [Live.WorkerRuns 0] w1')).2 in
  Live.state (Live.app w1) = Live.Idle
  /\ Live.dataOutput (Live.app w1) = "loaded"
  /\ Live.state (Live.app w1') = Live.Loading
  /\ Live.dataOutput (Live.app w1') = "loading"
  /\ Live.state (Live.app w2') = Live.Idle.
Proof.
  cbv zeta.
  destruct (loading_then_idle Bench.freshWorld [Live.WorkerRuns 0] [] [])
    as ((Hs & Hout & _) & _).
  - reflexivity.
  - reflexivity.
  - reflexivity.
  - vm_compute; reflexivity.
  - reflexivity.
  - destruct (loading_then_idle Bench.freshWorld [] [Live.WorkerRuns 0] [])
      as (_ & Hlater).
    + reflexivity.
    + reflexivity.
    + reflexivity.
    + vm_compute; reflexivity.
    + destruct Hlater as (Hs' & Hout' & _ & Hthen & _); [reflexivity|].
      destruct Hthen as (Hs2 & _); [reflexivity|].
      split; [exact Hs|]. split; [exact Hout|]. split; [exact Hs'|].
      split; [exact Hout'|exact Hs2].
Defined.

Lemma saved_recording_reads_back_witness :
  let w := Live.workerRuns 121
             (envSteps [Live.AudioFrames [[0; 1065353216]]] (Bench.recordingWorld true true)) in
  let mid := [Live.AudioFrames [[3212836864]]; Live.WorkerRuns 122] in
  readFromFile "out.kbd" (Live.disk (Live.mainLoop mid w).2)
  = Some [0; 1065353216; 3212836864].
Proof.
  cbv zeta.
  destruct (saved_recording_reads_back
              (Live.workerRuns 121
                 (envSteps [Live.AudioFrames [[0; 1065353216]]]
                    (Bench.recordingWorld true true)))
              [Live.AudioFrames [[3212836864]]; Live.WorkerRuns 122])
    as (Hread & _).
  - vm_compute; reflexivity.
  - vm_compute; reflexivity.
  - vm_compute; reflexivity.
  - replace (Live.waveformF _ ++ _) with [0; 1065353216; 3212836864]
      by (vm_compute; reflexivity).
    repeat constructor; unfold is_float32; lia.
  - cbv zeta in Hread.
    etransitivity; [|etransitivity; [exact Hread|]]; vm_compute; reflexivity.
Defined.

Lemma decoding_failure_is_silent_witness :
  Live.state (Live.app (Live.workerRuns 0 (decodingWorld deafLib [0; 5; 0]))) = Live.Decoding
  /\ Live.workDone (Live.app (Live.workerRuns 0 (decodingWorld deafLib [0; 5; 0]))) = false.
Proof.
  destruct (decoding_failure_is_silent (L := deafLib) (decodingWorld deafLib [0; 5; 0]) 0)
    as (Hs & _ & Hd & _).
  - reflexivity.
  - reflexivity.
  - reflexivity.
  - reflexivity.
  - split; [exact Hs|exact Hd].
Defined.

Lemma decoding_then_idle_witness :
  let w := decodingWorld Bench.lib [0; 5; 0; 7] in
  let mid := [Live.AudioFrames [[0]]; Live.WorkerRuns 1] in
  Live.state (Live.app (Live.mainLoop mid (Live.workerRuns 0 w)).2) = Live.Idle
  /\ (Live.getData (Live.app (Live.mainLoop mid (Live.workerRuns 0 w)).2)).1 = "done".
Proof.
  cbv zeta.
  destruct (decoding_then_idle (decodingWorld Bench.lib [0; 5; 0; 7]) 0
              (recoverText (L := Bench.lib) 2
                 [mkKeyPress 1 (-1); mkKeyPress 3 (-1)] tt
                 (Bench.similarity [mkKeyPress 1 (-1); mkKeyPress 3 (-1)]))
              [Live.AudioFrames [[0]]; Live.WorkerRuns 1])
    as (Hs & _ & _ & _ & Hget).
  - reflexivity.
  - reflexivity.
  - vm_compute; reflexivity.
  - split; [exact Hs|exact Hget].
Defined.

Lemma main_initial_state_witness :
  let s (target : string) :=
    @Live.initialState Bench.lib (Bench.host true true)
      ["keytap3-app"; "out.kbd"; "data"; target] 0 0 1 1500 in
  Live.state (s "100") = Live.Loading
  /\ Live.nKeysToCapture (Live.recording (s "100")) = 100
  /\ Live.nKeysToCapture (Live.recording (s "99999999999999999999")) = -1.
Proof.
  cbv zeta.
  destruct (main_initial_state (L := Bench.lib) (H := Bench.host true true)
              ["keytap3-app"; "out.kbd"; "data"; "100"]
              (@Live.initialState Bench.lib (Bench.host true true)
                 ["keytap3-app"; "out.kbd"; "data"; "100"] 0 0 1 1500))
    as (Hs & _ & _ & _ & _ & _ & _ & Hn & _).
  - vm_compute; reflexivity.
  - destruct (main_initial_state (L := Bench.lib) (H := Bench.host true true)
                ["keytap3-app"; "out.kbd"; "data"; "99999999999999999999"]
                (@Live.initialState Bench.lib (Bench.host true true)
                   ["keytap3-app"; "out.kbd"; "data"; "99999999999999999999"] 0 0 1 1500))
      as (_ & _ & _ & _ & _ & _ & _ & Hbig & _).
    + vm_compute; reflexivity.
    + split; [exact Hs|]. split.
      * apply (Hn 100); [vm_compute; reflexivity|]. vm_compute. split; discriminate.
      * apply (Hbig 99999999999999999999); [vm_compute; reflexivity|].
        vm_compute. discriminate.
Defined.
